(** * FableFlow development server (dev-server.py)

    A shallow embedding of [FableFlowDevHandler]: the request router
    ([do_GET], [do_POST], [do_OPTIONS]), the backend relay
    ([proxy_to_backend]), the index responder ([serve_index]) and
    [send_cors_headers], together with the parts of the Python standard
    library (CPython 3.11, POSIX) that the handler inherits or calls:
    [BaseHTTPRequestHandler], [SimpleHTTPRequestHandler], [posixpath],
    [urllib.parse.unquote] and the contract of [urllib.request.urlopen].

    Scope of the model.  A request is one that [parse_request] accepted
    with an HTTP/1.x version, so a status line and headers are emitted.
    Writing to the client socket does not fail.  Strings are sequences of
    8-bit characters: the request line and the headers are decoded as
    ISO-8859-1 by [http.server].  The log lines that [http.server] writes
    to stderr are left out; the [print] of [proxy_to_backend] is kept. *)

From Stdlib Require Import String Ascii List ZArith Bool Lia DecimalString.
Import ListNotations.
Local Open Scope list_scope.
Local Open Scope string_scope.
Local Open Scope nat_scope.

(** ** Python string primitives *)

Module Py.

(** [s.startswith(p)]. *)
Definition startswith (s p : string) : bool := String.prefix p s.

Fixpoint rev_string (acc s : string) : string :=
  match s with
  | "" => acc
  | String c r => rev_string (String c acc) r
  end.

Definition reversed (s : string) : string := rev_string "" s.

(** [c in s] for a single character. *)
Fixpoint contains (c : ascii) (s : string) : bool :=
  match s with
  | "" => false
  | String a r => Ascii.eqb a c || contains c r
  end.

(** [str.lower] on ISO-8859-1 code points: A-Z and the accented capitals
    192-222 (the multiplication sign 215 apart) move up by 32. *)
Definition lower_char (c : ascii) : ascii :=
  let n := nat_of_ascii c in
  if ((65 <=? n) && (n <=? 90))
     || ((192 <=? n) && (n <=? 222) && negb (n =? 215))
  then ascii_of_nat (n + 32) else c.

Fixpoint lower (s : string) : string :=
  match s with
  | "" => ""
  | String c r => String (lower_char c) (lower r)
  end.

(** [str.isspace] on ISO-8859-1 code points. *)
Definition isspace (c : ascii) : bool :=
  let n := nat_of_ascii c in
  ((9 <=? n) && (n <=? 13)) || ((28 <=? n) && (n <=? 32))
  || (n =? 133) || (n =? 160).

Fixpoint lstrip_by (f : ascii -> bool) (s : string) : string :=
  match s with
  | "" => ""
  | String c r => if f c then lstrip_by f r else s
  end.

Definition rstrip_by (f : ascii -> bool) (s : string) : string :=
  reversed (lstrip_by f (reversed s)).

Definition rstrip (s : string) : string := rstrip_by isspace s.

(** [s.split(sep)] for a one-character separator. *)
Fixpoint split (sep : ascii) (s : string) : list string :=
  match s with
  | "" => [""]
  | String a r =>
      if Ascii.eqb a sep then "" :: split sep r
      else match split sep r with
           | [] => [String a ""]
           | w :: ws => String a w :: ws
           end
  end.

(** [s.split(sep, 1)[0]]: the text before the first separator. *)
Fixpoint split1_head (sep : ascii) (s : string) : string :=
  match s with
  | "" => ""
  | String a r => if Ascii.eqb a sep then "" else String a (split1_head sep r)
  end.

(** [sep.join(l)]. *)
Fixpoint join (sep : string) (l : list string) : string :=
  match l with
  | [] => ""
  | [w] => w
  | w :: ws => w ++ sep ++ join sep ws
  end.

(** [str(n)] for an integer. *)
Definition str_of_Z (n : Z) : string := NilZero.string_of_int (Z.to_int n).
Definition str_of_nat (n : nat) : string := str_of_Z (Z.of_nat n).

(** [repr(s)] of a string without quotes, backslashes or control
    characters: the text between single quotes. *)
Definition repr (s : string) : string := "'" ++ s ++ "'".

(** *** [int(s)] on a string, base 10 *)

Definition is_digit (c : ascii) : bool :=
  let n := nat_of_ascii c in (48 <=? n) && (n <=? 57).

Definition digit_value (c : ascii) : Z := Z.of_nat (nat_of_ascii c - 48).

(** The blanks [int] skips at both ends: the ASCII ones, and NEL and
    NBSP, which the conversion to ASCII turns into spaces. *)
Definition int_blank (c : ascii) : bool :=
  let n := nat_of_ascii c in
  ((9 <=? n) && (n <=? 13)) || (n =? 32) || (n =? 133) || (n =? 160).

(** The scan over digits and single underscores: value so far, number of
    digits so far, whether the previous character was an underscore.
    Returns the value, the digit count and the unread rest. *)
Fixpoint scan_digits (acc : Z) (count : nat) (prev_us : bool) (s : string)
  : option (Z * nat * string) :=
  match s with
  | "" => if prev_us then None else Some (acc, count, "")
  | String c r =>
      if is_digit c then scan_digits (10 * acc + digit_value c) (S count) false r
      else if Ascii.eqb c "_" then
             if prev_us then None else scan_digits acc count true r
           else if prev_us then None else Some (acc, count, s)
  end.

Definition int_max_str_digits : nat := 4300.

(** [int(s)]: the integer, or the text of the [ValueError]. *)
Definition int (s : string) : string + Z :=
  let invalid := inl ("invalid literal for int() with base 10: " ++ repr s) in
  let s1 := lstrip_by int_blank s in
  let '(negative, s2) :=
    match s1 with
    | String "+" r => (false, r)
    | String "-" r => (true, r)
    | _ => (false, s1)
    end in
  match s2 with
  | String "_" _ => invalid
  | _ =>
      match scan_digits 0 0 false s2 with
      | Some (v, count, rest) =>
          if int_max_str_digits <? count then
            inl ("Exceeds the limit (4300 digits) for integer string conversion: value has "
                 ++ str_of_nat count
                 ++ " digits; use sys.set_int_max_str_digits() to increase the limit")
          else if count =? 0 then invalid
          else match lstrip_by int_blank rest with
               | "" => inr (if negative then (- v)%Z else v)
               | _ => invalid
               end
      | None => invalid
      end
  end.

End Py.

(** ** Requests, responses and the world around the handler *)

Definition bytes := list Byte.byte.

(** The header list of an [email.message.Message]: pairs in arrival order,
    duplicates kept. *)
Definition Headers := list (string * string).

(** [Message.get(name, failobj)]: the value of the first header whose name
    matches without regard to case. *)
Fixpoint headers_get (h : Headers) (name : string) : option string :=
  match h with
  | [] => None
  | (k, v) :: h' =>
      if String.eqb (Py.lower k) (Py.lower name) then Some v
      else headers_get h' name
  end.

(** [name in message]. *)
Definition headers_mem (h : Headers) (name : string) : bool :=
  match headers_get h name with Some _ => true | None => false end.

(** [Message.keys()]. *)
Definition headers_keys (h : Headers) : list string := map fst h.

(** A Python [dict] with string keys: insertion ordered, one entry per
    key; assigning to a key that is present keeps its position. *)
Definition Dict := list (string * string).

Fixpoint dict_set (d : Dict) (k v : string) : Dict :=
  match d with
  | [] => [(k, v)]
  | (k', v') :: d' =>
      if String.eqb k' k then (k', v) :: d' else (k', v') :: dict_set d' k v
  end.

(** One round of [dict(message)]: the key receives [message[key]]. *)
Definition dict_step (h : Headers) (d : Dict) (k : string) : Dict :=
  match headers_get h k with
  | Some v => dict_set d k v
  | None => d
  end.

(** [dict(message)]: for every key of [keys()], in order, the value
    [message[key]]. *)
Definition dict_of_headers (h : Headers) : Dict :=
  fold_left (dict_step h) (headers_keys h) [].

(** No name occurs twice. *)
Fixpoint distinct (l : list string) : bool :=
  match l with
  | [] => true
  | x :: r => negb (existsb (String.eqb x) r) && distinct r
  end.

(** No header name occurs twice, whatever the case of its letters. *)
Definition distinct_names (h : Headers) : bool :=
  distinct (map (fun kv => Py.lower (fst kv)) h).

(** The inbound request as the handler sees it: [self.command],
    [self.path] (query string included), [self.headers] and the bytes
    still to come on [self.rfile]. *)
Record Request := mkRequest {
  command : string;
  path : string;
  headers : Headers;
  rfile : bytes
}.

(** The arguments [proxy_to_backend] gives to [urllib.request.Request]. *)
Record OutboundRequest := mkOutbound {
  full_url : string;
  data : option bytes;
  method : string;
  out_headers : Dict
}.

(** The exceptions of the model, with [str(e)]. *)
Inductive Exn :=
| ValueError (text : string)
| OSError (text : string)
| URLError (reason : string)
| HTTPError (status : Z) (reason : string)
| OverflowError (text : string)
| MemoryError
| HTTPException (text : string).

Definition str (e : Exn) : string :=
  match e with
  | ValueError t => t
  | OSError t => t
  | URLError reason => "<urlopen error " ++ reason ++ ">"
  | HTTPError c m => "HTTP Error " ++ Py.str_of_Z c ++ ": " ++ m
  | OverflowError t => t
  | MemoryError => ""
  | HTTPException t => t
  end.

(** What [urlopen] hands back: [getcode()], the reason phrase,
    [headers.items()] and [read()].  The body arrives after the headers:
    [read()] returns [payload], unless the connection breaks or closes
    early, and then it raises [read_error] ([IncompleteRead], a reset). *)
Record BackendResponse := mkBackendResponse {
  code : Z;
  msg : string;
  hdrs : Headers;
  payload : bytes;
  read_error : option Exn
}.

(** What becomes of a request given to [urlopen]: the backend cannot be
    reached (connection refused, DNS failure, timeout while connecting;
    [urlopen] raises [URLError] around the socket error, whose text is
    kept), urllib or [http.client] raise another exception before an
    answer is there (a URL with control characters, a connection that
    breaks), or the backend answers. *)
Inductive BackendOutcome :=
| Unreachable (description : string)
| Rejected (e : Exn)
| Answered (r : BackendResponse).

(** A path of the file system: nothing there, a regular file that can be
    read, an entry whose [open] fails with the given error text, or a
    directory with its [os.listdir] (if permitted). *)
Inductive FsNode :=
| Absent
| File (content : bytes)
| Unreadable (error : string)
| Dir (listing : option (list string)).

(** A path with a NUL character: the operating system interface refuses
    it, so nothing is ever found there, and [open] raises [ValueError]. *)
Definition has_nul (p : string) : bool := Py.contains (ascii_of_nat 0) p.

(** Everything the handler takes from its surroundings. *)
Record Env := mkEnv {
  script_dir : string;                    (* Path(__file__).parent *)
  fs : string -> FsNode;
  fs_refuses_nul : forall p, has_nul p = true -> fs p = Absent;
  (* the exception self.rfile.read(n) raises, if it raises: OverflowError
     above sys.maxsize, OverflowError or MemoryError for a length too
     large to allocate, OSError when the connection breaks *)
  read_refused : Z -> option Exn;
  backend : OutboundRequest -> BackendOutcome;
  (* urllib's HTTPRedirectHandler at work on a 30x answer with Location *)
  follow_redirect : OutboundRequest -> BackendResponse -> Exn + BackendResponse;
  version_string : string;                (* self.version_string() *)
  date_time_string : string;              (* self.date_time_string() *)
  responses : Z -> option (string * string);   (* self.responses *)
  (* error_message_format % {code, message, explain}, UTF-8 encoded *)
  error_page : Z -> string -> string -> bytes;
  error_content_type : string;
  guess_type : string -> string;          (* self.guess_type(path) *)
  last_modified : string -> string;       (* date_time_string(st_mtime) *)
  (* send_head's If-Modified-Since test on the file at a path *)
  not_modified : Headers -> string -> bool;
  (* the URL send_head redirects a directory request to *)
  slash_redirect : string -> string;
  (* the page list_directory renders: file path, request path *)
  listing_page : string -> string -> bytes;
  filesystem_encoding : string            (* sys.getfilesystemencoding() *)
}.

(** What goes out to the client, in order. *)
Inductive Wire :=
| StatusLine (status : Z) (message : string)
| HeaderLine (keyword value : string)
| EndHeaders
| Body (b : bytes).

(** What the handler does to the world, in order. *)
Inductive Effect :=
| Urlopen (r : OutboundRequest)
| FsExists (p : string)
| FsIsdir (p : string)
| FsIsfile (p : string)
| FsOpen (p : string)
| FsListdir (p : string)
| Print (line : string).

(** The handler object's mutable part. *)
Record Self := mkSelf {
  headers_buffer : list Wire;     (* self._headers_buffer *)
  wfile : list Wire;              (* what self.wfile received *)
  effects : list Effect
}.

Definition fresh : Self := mkSelf [] [] [].

(** ** A state monad with exceptions *)

Inductive Outcome (A : Type) :=
| Done (a : A)
| Raised (e : Exn).
Arguments Done {A} a.
Arguments Raised {A} e.

Definition M (A : Type) := Self -> Outcome A * Self.

Definition ret {A} (a : A) : M A := fun s => (Done a, s).

Definition bind {A B} (m : M A) (k : A -> M B) : M B :=
  fun s => match m s with
           | (Done a, s') => k a s'
           | (Raised e, s') => (Raised e, s')
           end.

Definition raise {A} (e : Exn) : M A := fun s => (Raised e, s).

(** [try: m  except Exception as e: handler e]. *)
Definition try_except {A} (m : M A) (handler : Exn -> M A) : M A :=
  fun s => match m s with
           | (Done a, s') => (Done a, s')
           | (Raised e, s') => handler e s'
           end.

Notation "x <- m ;; k" := (bind m (fun x => k))
  (at level 61, m at next level, right associativity).
Notation "m ;; k" := (bind m (fun _ => k))
  (at level 61, right associativity).

Definition buffer (w : Wire) : M unit :=
  fun s => (Done tt, mkSelf (headers_buffer s ++ [w]) (wfile s) (effects s)).

Definition wfile_write (b : bytes) : M unit :=
  fun s => (Done tt, mkSelf (headers_buffer s) (wfile s ++ [Body b]) (effects s)).

Definition flush_headers : M unit :=
  fun s => (Done tt, mkSelf [] (wfile s ++ headers_buffer s) (effects s)).

Definition perform (e : Effect) : M unit :=
  fun s => (Done tt, mkSelf (headers_buffer s) (wfile s) (effects s ++ [e])).

(** Run a handler on a fresh connection: what the client received and
    what was done to the world. *)
Definition run {A} (m : M A) : list Wire * list Effect :=
  let s := snd (m fresh) in (wfile s, effects s).

Definition sent {A} (m : M A) : list Wire := fst (run m).
Definition performed {A} (m : M A) : list Effect := snd (run m).

(** ** What the client sees in a sequence of wire items *)

Fixpoint status_of (w : list Wire) : option Z :=
  match w with
  | [] => None
  | StatusLine c _ :: _ => Some c
  | _ :: w' => status_of w'
  end.

Fixpoint reason_of (w : list Wire) : option string :=
  match w with
  | [] => None
  | StatusLine _ m :: _ => Some m
  | _ :: w' => reason_of w'
  end.

Fixpoint headers_of (w : list Wire) : Headers :=
  match w with
  | [] => []
  | HeaderLine k v :: w' => (k, v) :: headers_of w'
  | _ :: w' => headers_of w'
  end.

Fixpoint body_of (w : list Wire) : bytes :=
  match w with
  | [] => []
  | Body b :: w' => (b ++ body_of w')%list
  | _ :: w' => body_of w'
  end.

(** The outbound requests among the effects, in order. *)
Fixpoint urlopen_calls (l : list Effect) : list OutboundRequest :=
  match l with
  | [] => []
  | Urlopen r :: l' => r :: urlopen_calls l'
  | _ :: l' => urlopen_calls l'
  end.

(** The file-system paths among the effects, in order. *)
Fixpoint fs_paths (l : list Effect) : list string :=
  match l with
  | [] => []
  | (FsExists p | FsIsdir p | FsIsfile p | FsOpen p | FsListdir p) :: l' =>
      p :: fs_paths l'
  | _ :: l' => fs_paths l'
  end.

(** ** [posixpath] and [urllib.parse] *)

Fixpoint last_char (s : string) : option ascii :=
  match s with
  | "" => None
  | String c "" => Some c
  | String _ r => last_char r
  end.

(** [s.endswith('/')]. *)
Definition ends_with_slash (s : string) : bool :=
  match last_char s with
  | Some c => Ascii.eqb c "/"
  | None => false
  end.

(** [os.path.join(a, b)]. *)
Definition os_path_join (a b : string) : string :=
  if Py.startswith b "/" then b
  else if String.eqb a "" || ends_with_slash a then a ++ b
       else a ++ "/" ++ b.

(** [p[:p.rfind('/') + 1]]. *)
Fixpoint upto_last_slash (p : string) : string :=
  match p with
  | "" => ""
  | String c r => if Py.contains "/" p then String c (upto_last_slash r) else ""
  end.

Fixpoint all_slashes (s : string) : bool :=
  match s with
  | "" => true
  | String c r => Ascii.eqb c "/" && all_slashes r
  end.

(** [os.path.dirname(p)]. *)
Definition dirname (p : string) : string :=
  let head := upto_last_slash p in
  if negb (String.eqb head "") && negb (all_slashes head)
  then Py.rstrip_by (fun c => Ascii.eqb c "/") head
  else head.

Definition hex_value (c : ascii) : option nat :=
  let n := nat_of_ascii c in
  if (48 <=? n) && (n <=? 57) then Some (n - 48)
  else if (65 <=? n) && (n <=? 70) then Some (n - 55)
  else if (97 <=? n) && (n <=? 102) then Some (n - 87)
  else None.

(** One piece after a percent sign in [unquote_to_bytes]: two hex digits
    become a byte, anything else keeps its percent sign. *)
Definition unquote_item (item : string) : string :=
  match item with
  | String a (String b r) =>
      match hex_value a, hex_value b with
      | Some x, Some y => String (ascii_of_nat (16 * x + y)) r
      | _, _ => String "%" item
      end
  | _ => String "%" item
  end.

(** [urllib.parse.unquote], on 8-bit characters: the decoding of the
    unquoted bytes as UTF-8 is not represented. *)
Definition unquote (s : string) : string :=
  match Py.split "%" s with
  | [] => s
  | first :: rest => first ++ String.concat "" (map unquote_item rest)
  end.

Fixpoint slashes (n : nat) : string :=
  match n with
  | O => ""
  | S n' => String "/" (slashes n')
  end.

(** One round of the loop of [posixpath.normpath] over the components. *)
Definition normpath_step (initial_slashes : nat) (new_comps : list string)
    (comp : string) : list string :=
  if String.eqb comp "" || String.eqb comp "." then new_comps
  else if negb (String.eqb comp "..")
          || ((initial_slashes =? 0) && (length new_comps =? 0))
          || String.eqb (last new_comps "") ".."
       then (new_comps ++ [comp])%list
       else removelast new_comps.

(** [posixpath.normpath(p)]. *)
Definition normpath (p : string) : string :=
  if String.eqb p "" then "."
  else
    let initial_slashes :=
      if Py.startswith p "/" then
        if Py.startswith p "//" && negb (Py.startswith p "///") then 2 else 1
      else 0 in
    let comps := fold_left (normpath_step initial_slashes) (Py.split "/" p) [] in
    let q := slashes initial_slashes ++ Py.join "/" comps in
    if String.eqb q "" then "." else q.

(** The path component of [urllib.parse.urlsplit(p)] for a request path:
    the text before the fragment and the query. *)
Definition urlsplit_path (p : string) : string :=
  Py.split1_head "?" (Py.split1_head "#" p).

(** [html.escape(s, quote=False)]. *)
Fixpoint html_escape (s : string) : string :=
  match s with
  | "" => ""
  | String c r =>
      (if Ascii.eqb c "&" then "&amp;"
       else if Ascii.eqb c "<" then "&lt;"
       else if Ascii.eqb c ">" then "&gt;"
       else String c "") ++ html_escape r
  end.

Section Server.

Variable E : Env.

(** ** [http.server.BaseHTTPRequestHandler] *)

Definition send_response_only (c : Z) (message : option string) : M unit :=
  let message :=
    match message with
    | Some m => m
    | None => match responses E c with
              | Some (short, _) => short
              | None => ""
              end
    end in
  buffer (StatusLine c message).

Definition send_header (keyword value : string) : M unit :=
  buffer (HeaderLine keyword value).

Definition end_headers : M unit :=
  buffer EndHeaders ;; flush_headers.

Definition send_response (c : Z) (message : option string) : M unit :=
  send_response_only c message ;;
  send_header "Server" (version_string E) ;;
  send_header "Date" (date_time_string E).

Definition send_error (req : Request) (c : Z) (message : option string)
  : M unit :=
  let '(shortmsg, longmsg) :=
    match responses E c with
    | Some sl => sl
    | None => ("???", "???")
    end in
  let message := match message with Some m => m | None => shortmsg end in
  let explain := longmsg in
  send_response c (Some message) ;;
  send_header "Connection" "close" ;;
  if ((200 <=? c) && negb ((c =? 204) || (c =? 205) || (c =? 304)))%Z then
    let body := error_page E c (html_escape message) (html_escape explain) in
    send_header "Content-Type" (error_content_type E) ;;
    send_header "Content-Length" (Py.str_of_nat (length body)) ;;
    end_headers ;;
    if negb (String.eqb (command req) "HEAD") && negb (length body =? 0)
    then wfile_write body else ret tt
  else end_headers.

(** ** [urllib.request.urlopen]

    An answer with a 2xx status is returned.  Any other status goes to
    the error handlers: 301, 302, 303, 307 and 308 with a [Location] or
    [URI] header to the redirect handler, everything else to
    [HTTPDefaultErrorHandler], which raises [HTTPError]. *)

Definition redirect_status (c : Z) : bool :=
  ((c =? 301) || (c =? 302) || (c =? 303) || (c =? 307) || (c =? 308))%Z.

(** What [urlopen] returns or raises for a request. *)
Definition urlopen_result (r : OutboundRequest) : Exn + BackendResponse :=
  match backend E r with
  | Unreachable why => inl (URLError why)
  | Rejected e => inl e
  | Answered resp =>
      if ((200 <=? code resp) && (code resp <? 300))%Z then inr resp
      else if redirect_status (code resp)
              && (headers_mem (hdrs resp) "location"
                  || headers_mem (hdrs resp) "uri")
           then follow_redirect E r resp
           else inl (HTTPError (code resp) (msg resp))
  end.

Definition urlopen (r : OutboundRequest) : M BackendResponse :=
  perform (Urlopen r) ;;
  match urlopen_result r with
  | inl e => raise e
  | inr resp => ret resp
  end.

(** ** [http.server.SimpleHTTPRequestHandler] *)

(** [self.directory], set by [__init__] to
    [Path(__file__).parent / "frontend"]. *)
Definition directory : string := os_path_join (script_dir E) "frontend".

Definition translate_word (acc word : string) : string :=
  if negb (String.eqb (dirname word) "")
     || String.eqb word "." || String.eqb word ".."
  then acc
  else os_path_join acc word.

Definition translate_path (p : string) : string :=
  let p := Py.split1_head "?" p in
  let p := Py.split1_head "#" p in
  let trailing_slash := ends_with_slash (Py.rstrip p) in
  let p := unquote p in
  let p := normpath p in
  let words := filter (fun w => negb (String.eqb w "")) (Py.split "/" p) in
  let p := fold_left translate_word words directory in
  if trailing_slash then p ++ "/" else p.

Definition list_directory (req : Request) (p : string) : M (option bytes) :=
  perform (FsListdir p) ;;
  match fs E p with
  | Dir (Some _) =>
      let encoded := listing_page E p (path req) in
      send_response 200 None ;;
      send_header "Content-type"
        ("text/html; charset=" ++ filesystem_encoding E) ;;
      send_header "Content-Length" (Py.str_of_nat (length encoded)) ;;
      end_headers ;;
      ret (Some encoded)
  | _ =>
      send_error req 404 (Some "No permission to list directory") ;;
      ret None
  end.

(** The part of [send_head] from [ctype = self.guess_type(path)] on. *)
Definition send_file_head (req : Request) (p : string) : M (option bytes) :=
  let ctype := guess_type E p in
  if ends_with_slash p then
    send_error req 404 (Some "File not found") ;; ret None
  else
    perform (FsOpen p) ;;
    if has_nul p then raise (ValueError "embedded null byte") else
    match fs E p with
    | File content =>
        if headers_mem (headers req) "If-Modified-Since"
           && negb (headers_mem (headers req) "If-None-Match")
           && not_modified E (headers req) p
        then send_response 304 None ;; end_headers ;; ret None
        else
          send_response 200 None ;;
          send_header "Content-type" ctype ;;
          send_header "Content-Length" (Py.str_of_nat (length content)) ;;
          send_header "Last-Modified" (last_modified E p) ;;
          end_headers ;;
          ret (Some content)
    | _ => send_error req 404 (Some "File not found") ;; ret None
    end.

Definition isfile (p : string) : bool :=
  match fs E p with
  | File _ | Unreadable _ => true
  | _ => false
  end.

Definition send_head (req : Request) : M (option bytes) :=
  let p := translate_path (path req) in
  perform (FsIsdir p) ;;
  match fs E p with
  | Dir _ =>
      if negb (ends_with_slash (urlsplit_path (path req))) then
        send_response 301 None ;;
        send_header "Location" (slash_redirect E (path req)) ;;
        send_header "Content-Length" "0" ;;
        end_headers ;;
        ret None
      else
        perform (FsIsfile (os_path_join p "index.html")) ;;
        if isfile (os_path_join p "index.html")
        then send_file_head req (os_path_join p "index.html")
        else
          perform (FsIsfile (os_path_join p "index.htm")) ;;
          if isfile (os_path_join p "index.htm")
          then send_file_head req (os_path_join p "index.htm")
          else list_directory req p
  | _ => send_file_head req p
  end.

(** [SimpleHTTPRequestHandler.do_GET], reached by [super().do_GET()]. *)
Definition simple_do_GET (req : Request) : M unit :=
  f <- send_head req ;;
  match f with
  | Some content => wfile_write content
  | None => ret tt
  end.

(** [do_HEAD], inherited unchanged. *)
Definition do_HEAD (req : Request) : M unit :=
  _ <- send_head req ;; ret tt.

End Server.

(** ** [FableFlowDevHandler] *)

Section Handler.

Variable E : Env.

Definition send_cors_headers : M unit :=
  send_header "Access-Control-Allow-Origin" "*" ;;
  send_header "Access-Control-Allow-Methods" "GET, POST, PUT, DELETE, OPTIONS" ;;
  send_header "Access-Control-Allow-Headers" "Content-Type, Authorization".

(** [int(self.headers.get('Content-Length', 0))]: the integer, or the
    text of the [ValueError]. *)
Definition content_length_value (req : Request) : string + Z :=
  match headers_get (headers req) "Content-Length" with
  | None => inr 0%Z
  | Some v => Py.int v
  end.

Definition content_length_of (req : Request) : M Z :=
  match content_length_value req with
  | inr n => ret n
  | inl text => raise (ValueError text)
  end.

(** [self.rfile.read(n)]: the next [n] bytes, fewer at end of stream;
    an exception for a length the runtime cannot serve. *)
Definition rfile_read (req : Request) (n : Z) : M bytes :=
  match read_refused E n with
  | Some e => raise e
  | None => ret (firstn (Z.to_nat n) (rfile req))
  end.

(** The lines that prepare [req_data]; [self.rfile] is always there and
    true, so the outer test is passed. *)
Definition prepare_req_data (req : Request) : M (option bytes) :=
  content_length <- content_length_of req ;;
  if (0 <? content_length)%Z
  then (body <- rfile_read req content_length ;; ret (Some body))
  else ret None.

(** The exception that reading a body of declared length [n] raises, if
    any; nothing is read when [n] is not positive. *)
Definition read_failure (n : Z) : option Exn :=
  if (0 <? n)%Z then read_refused E n else None.

(** [response.read()]. *)
Definition response_read (response : BackendResponse) : M bytes :=
  match read_error response with
  | Some e => raise e
  | None => ret (payload response)
  end.

Definition excluded (header : string) : bool :=
  existsb (String.eqb (Py.lower header))
    ["content-encoding"; "content-length"; "transfer-encoding"].

(** The loop that copies the headers of the backend's answer. *)
Fixpoint copy_headers (items : Headers) : M unit :=
  match items with
  | [] => ret tt
  | (header, value) :: rest =>
      (if negb (excluded header) then send_header header value else ret tt) ;;
      copy_headers rest
  end.

Definition backend_url (req : Request) : string :=
  "http://localhost:8080" ++ path req.

(** The request that reaches [urlopen] when the declared content
    length is [n] and the body could be read. *)
Definition outbound_request (req : Request) (n : Z) : OutboundRequest :=
  mkOutbound (backend_url req)
    (if (0 <? n)%Z then Some (firstn (Z.to_nat n) (rfile req)) else None)
    (command req) (dict_of_headers (headers req)).

Definition proxy_to_backend (req : Request) : M unit :=
  try_except
    (req_data <- prepare_req_data req ;;
     let r := mkOutbound (backend_url req) req_data (command req)
                (dict_of_headers (headers req)) in
     response <- urlopen E r ;;
     send_response E (code response) None ;;
     send_cors_headers ;;
     copy_headers (hdrs response) ;;
     end_headers ;;
     body <- response_read response ;;
     wfile_write body)
    (fun e =>
       perform (Print ("Error proxying to backend: " ++ str e)) ;;
       send_error E req 502 (Some ("Backend connection failed: " ++ str e))).

(** [Path(__file__).parent / "frontend" / "templates" / "index.html"]. *)
Definition index_path : string :=
  os_path_join (os_path_join (directory E) "templates") "index.html".

(** [index_path.exists()]. *)
Definition path_exists (p : string) : M bool :=
  perform (FsExists p) ;;
  ret (match fs E p with Absent => false | _ => true end).

(** [open(p, 'rb')] followed by [f.read()]. *)
Definition open_rb (p : string) : M bytes :=
  perform (FsOpen p) ;;
  match fs E p with
  | File content => ret content
  | Absent =>
      raise (OSError ("[Errno 2] No such file or directory: " ++ Py.repr p))
  | Unreadable error => raise (OSError error)
  | Dir _ => raise (OSError ("[Errno 21] Is a directory: " ++ Py.repr p))
  end.

Definition serve_index (req : Request) : M unit :=
  try_except
    (present <- path_exists index_path ;;
     if present : bool then
       content <- open_rb index_path ;;
       send_response E 200 None ;;
       send_header "Content-Type" "text/html" ;;
       send_cors_headers ;;
       end_headers ;;
       wfile_write content
     else send_error E req 404 (Some "index.html not found"))
    (fun e => send_error E req 500 (Some ("Error serving index: " ++ str e))).

Definition do_GET (req : Request) : M unit :=
  if Py.startswith (path req) "/api/" then proxy_to_backend req
  else if Py.startswith (path req) "/read/" then proxy_to_backend req
  else if Py.startswith (path req) "/static/" then simple_do_GET E req
  else serve_index req.

Definition do_POST (req : Request) : M unit :=
  if Py.startswith (path req) "/api/" then proxy_to_backend req
  else send_error E req 404 None.

Definition do_OPTIONS (req : Request) : M unit :=
  send_response E 200 None ;;
  send_cors_headers ;;
  end_headers.

(** The dispatch of [BaseHTTPRequestHandler.handle_one_request]: the
    method [do_<command>] if the class has one, else 501. *)
Definition handle_one_request (req : Request) : M unit :=
  if String.eqb (command req) "GET" then do_GET req
  else if String.eqb (command req) "POST" then do_POST req
  else if String.eqb (command req) "OPTIONS" then do_OPTIONS req
  else if String.eqb (command req) "HEAD" then do_HEAD E req
  else send_error E req 501
         (Some ("Unsupported method (" ++ Py.repr (command req) ++ ")")).

End Handler.

(** ** The routing table in words

    GET: [/api/] and [/read/] to the backend, [/static/] to the static
    root, anything else to the index document.  POST: [/api/] to the
    backend, anything else refused with 404. *)

Inductive Route := ToBackend | ToStaticRoot | ToIndex | Refused404.

Definition route (command path : string) : Route :=
  let under prefix := Py.startswith path prefix in
  if String.eqb command "GET" then
    if under "/api/" || under "/read/" then ToBackend
    else if under "/static/" then ToStaticRoot
    else ToIndex
  else
    if under "/api/" then ToBackend else Refused404.

Definition dispatch (E : Env) (req : Request) (r : Route) : M unit :=
  match r with
  | ToBackend => proxy_to_backend E req
  | ToStaticRoot => simple_do_GET E req
  | ToIndex => serve_index E req
  | Refused404 => send_error E req 404 None
  end.

(** A path that matches none of the three prefixes. *)
Definition unmatched (p : string) : bool :=
  negb (Py.startswith p "/api/") && negb (Py.startswith p "/read/")
  && negb (Py.startswith p "/static/").

(** ** Staying inside the static root *)

(** A request path read naively, segment by segment from the root: does a
    [..] climb above the root at some point? *)
Fixpoint climbs_above (depth : nat) (segments : list string) : bool :=
  match segments with
  | [] => false
  | seg :: rest =>
      if String.eqb seg "" || String.eqb seg "." then climbs_above depth rest
      else if String.eqb seg ".." then
             match depth with
             | O => true
             | S d => climbs_above d rest
             end
           else climbs_above (S depth) rest
  end.

Definition escapes_static_root (p : string) : bool :=
  climbs_above 0
    (Py.split "/" (unquote (Py.split1_head "#" (Py.split1_head "?" p)))).

Fixpoint strip_prefix (pre s : string) : option string :=
  match pre, s with
  | "", _ => Some s
  | String a pre', String b s' =>
      if Ascii.eqb a b then strip_prefix pre' s' else None
  | _, _ => None
  end.

(** A file path lies inside [root]: it is [root] itself, or [root]
    followed by [/] and components none of which is [..]. *)
Definition inside (root p : string) : bool :=
  match strip_prefix root p with
  | None => false
  | Some "" => true
  | Some (String c _ as rest) =>
      Ascii.eqb c "/"
      && forallb (fun w => negb (String.eqb w "..")) (Py.split "/" rest)
  end.

(** The directory the [/static/] prefix maps to: [/static/app.js] is
    looked up as [frontend/static/app.js]. *)
Definition static_root (E : Env) : string :=
  os_path_join (directory E) "static".

(** The three headers of [send_cors_headers]. *)
Definition cors_headers : Headers :=
  [ ("Access-Control-Allow-Origin", "*");
    ("Access-Control-Allow-Methods", "GET, POST, PUT, DELETE, OPTIONS");
    ("Access-Control-Allow-Headers", "Content-Type, Authorization") ].

(** All three are among the headers of a response, with these values. *)
Definition has_cors_headers (h : Headers) : bool :=
  forallb
    (fun kv => existsb
       (fun kv' => String.eqb (fst kv') (fst kv) && String.eqb (snd kv') (snd kv))
       h)
    cors_headers.

(** ** A concrete world for examples *)

Module Sample.

Definition b (s : string) : bytes := list_byte_of_string s.

Definition status_table (c : Z) : option (string * string) :=
  if (c =? 200)%Z then Some ("OK", "Request fulfilled, document follows")
  else if (c =? 404)%Z then Some ("Not Found", "Nothing matches the given URI")
  else if (c =? 500)%Z then
         Some ("Internal Server Error", "Server got itself in trouble")
  else if (c =? 501)%Z then
         Some ("Not Implemented", "Server does not support this operation")
  else if (c =? 502)%Z then
         Some ("Bad Gateway", "Invalid responses from another server/proxy")
  else None.

(** The files of a tree; no name has a NUL character. *)
Definition tree (files : string -> FsNode) (p : string) : FsNode :=
  if has_nul p then Absent else files p.

Definition tree_refuses_nul (files : string -> FsNode) (p : string)
    (H : has_nul p = true) : tree files p = Absent :=
  match eq_sym H in (_ = x) return ((if x then Absent else files p) = Absent) with
  | eq_refl => eq_refl
  end.

(** [self.rfile.read(n)] on a 64-bit build: a length above [sys.maxsize]
    does not fit an index, one within 32 of it is too large for a byte
    string, and one of [2^47] or more is beyond the address space of the
    process.  Smaller lengths are taken to be served. *)
Definition refused (n : Z) : option Exn :=
  if (9223372036854775807 <? n)%Z
  then Some (OverflowError "cannot fit 'int' into an index-sized integer")
  else if (9223372036854775775 <=? n)%Z
  then Some (OverflowError "byte string is too large")
  else if (140737488355328 <=? n)%Z
  then Some MemoryError
  else None.

Definition env (files : string -> FsNode)
    (server : OutboundRequest -> BackendOutcome) : Env :=
  {| script_dir := "/srv/fableflow";
     fs := tree files;
     fs_refuses_nul := tree_refuses_nul files;
     read_refused := refused;
     backend := server;
     follow_redirect := fun _ r => inr r;
     version_string := "SimpleHTTP/0.6 Python/3.11.2";
     date_time_string := "Tue, 03 Nov 2026 09:00:00 GMT";
     responses := status_table;
     error_page := fun c message explain =>
                     b (Py.str_of_Z c ++ " " ++ message ++ " " ++ explain);
     error_content_type := "text/html;charset=utf-8";
     guess_type := fun _ => "application/octet-stream";
     last_modified := fun _ => "Mon, 02 Nov 2026 09:00:00 GMT";
     not_modified := fun _ _ => false;
     slash_redirect := fun p => p ++ "/";
     listing_page := fun _ _ => b "<ul></ul>";
     filesystem_encoding := "utf-8" |}.

Definition index_html : bytes := b "<html>FableFlow</html>".

(** The frontend tree: the index template, one script, and a file that
    happens to be called etc/passwd in the served directory. *)
Definition files (p : string) : FsNode :=
  if String.eqb p "/srv/fableflow/frontend/templates/index.html"
  then File index_html
  else if String.eqb p "/srv/fableflow/frontend/static/app.js"
  then File (b "console.log(1)")
  else if String.eqb p "/srv/fableflow/frontend/etc/passwd"
  then File (b "not the system one")
  else Absent.

Definition no_files (p : string) : FsNode := Absent.

Definition answer (c : Z) (m : string) (h : Headers) (body : string)
  : OutboundRequest -> BackendOutcome :=
  fun _ => Answered (mkBackendResponse c m h (b body) None).

Definition down : OutboundRequest -> BackendOutcome :=
  fun _ => Unreachable "[Errno 111] Connection refused".

Definition get (p : string) : Request :=
  mkRequest "GET" p [("Host", "localhost:3000")] [].

Definition post (p : string) (body : string) : Request :=
  mkRequest "POST" p
    [("Host", "localhost:3000");
     ("Content-Type", "application/json");
     ("Content-Length", Py.str_of_nat (String.length body))]
    (b body).

End Sample.

(** ** Vocabulary of the proofs *)

(** A plain file or directory name: not empty, no slash, neither [.] nor
    [..]. *)
Definition simple_name (w : string) : Prop :=
  w <> "" /\ Py.contains "/" w = false /\ w <> "." /\ w <> "..".

(** The names [ws] as a relative path, each behind a slash. *)
Fixpoint segments (ws : list string) : string :=
  match ws with
  | [] => ""
  | w :: r => "/" ++ w ++ segments r
  end.

(** A path made of [root], plain names, and at most a closing slash. *)
Definition in_root (root p : string) : Prop :=
  exists ws tail,
    p = root ++ segments ws ++ tail
    /\ Forall simple_name ws
    /\ (tail = "" \/ tail = "/").

(** An effect on the file system looks at a path inside [root]. *)
Definition fs_effect_inside (root : string) (e : Effect) : bool :=
  match e with
  | FsExists p | FsIsdir p | FsIsfile p | FsOpen p | FsListdir p => inside root p
  | _ => true
  end.

Definition stays_inside (root : string) (e : Effect) : Prop :=
  fs_effect_inside root e = true.

(** A computation adds only effects that satisfy [P]. *)
Definition preserves {A} (P : Effect -> Prop) (m : M A) : Prop :=
  forall s, Forall P (effects s) -> Forall P (effects (snd (m s))).

(** The headers as wire items. *)
Definition header_lines (h : Headers) : list Wire :=
  map (fun kv => HeaderLine (fst kv) (snd kv)) h.

(** The headers of the backend's answer that [proxy_to_backend] copies. *)
Definition relayed_headers (h : Headers) : Headers :=
  filter (fun kv => negb (excluded (fst kv))) h.

(** What the relay sends for an answer that [urlopen] returned, down
    to the end of the headers. *)
Definition relayed_head (E : Env) (resp : BackendResponse) : list Wire :=
  [ StatusLine (code resp) (match responses E (code resp) with
                            | Some (short, _) => short
                            | None => ""
                            end);
    HeaderLine "Server" (version_string E);
    HeaderLine "Date" (date_time_string E);
    HeaderLine "Access-Control-Allow-Origin" "*";
    HeaderLine "Access-Control-Allow-Methods" "GET, POST, PUT, DELETE, OPTIONS";
    HeaderLine "Access-Control-Allow-Headers" "Content-Type, Authorization" ]
  ++ header_lines (relayed_headers (hdrs resp))
  ++ [ EndHeaders ].

(** What the relay sends for an answer that [urlopen] returned and whose
    body could be read. *)
Definition relayed (E : Env) (resp : BackendResponse) : list Wire :=
  [ StatusLine (code resp) (match responses E (code resp) with
                            | Some (short, _) => short
                            | None => ""
                            end);
    HeaderLine "Server" (version_string E);
    HeaderLine "Date" (date_time_string E);
    HeaderLine "Access-Control-Allow-Origin" "*";
    HeaderLine "Access-Control-Allow-Methods" "GET, POST, PUT, DELETE, OPTIONS";
    HeaderLine "Access-Control-Allow-Headers" "Content-Type, Authorization" ]
  ++ header_lines (relayed_headers (hdrs resp))
  ++ [ EndHeaders; Body (payload resp) ].

(** ** The shape of what is sent *)

(** Only body chunks. *)
Fixpoint only_bodies (w : list Wire) : bool :=
  match w with
  | [] => true
  | Body _ :: r => only_bodies r
  | _ => false
  end.

(** Header lines, the end of the headers, then only body chunks. *)
Fixpoint headers_then_bodies (w : list Wire) : bool :=
  match w with
  | HeaderLine _ _ :: r => headers_then_bodies r
  | EndHeaders :: r => only_bodies r
  | _ => false
  end.

(** One complete response: a status line, headers, the end of the
    headers, the body. *)
Definition one_response (w : list Wire) : bool :=
  match w with
  | StatusLine _ _ :: r => headers_then_bodies r
  | _ => false
  end.

(** The lines printed on the console, in order. *)
Fixpoint printed (l : list Effect) : list string :=
  match l with
  | [] => []
  | Print line :: l' => line :: printed l'
  | _ :: l' => printed l'
  end.

(** An effect that is no call of the backend. *)
Definition not_a_call (e : Effect) : Prop :=
  match e with
  | Urlopen _ => False
  | _ => True
  end.

(** ** Process start: [main] *)

(** How [with ReusableTCPServer(("", PORT), FableFlowDevHandler) as httpd:
    httpd.serve_forever()] comes to an end: the constructor or the loop
    raises [OSError] with the given [errno], [KeyboardInterrupt] is raised,
    or SIGINT or SIGTERM arrives and [signal_handler] runs. *)
Inductive ServeEnd :=
| Fails (errno : option Z)
| Interrupt
| Stopped.

(** What [main] does, in order. *)
Inductive Action :=
| Say (line : string)                    (* print(line) *)
| OnSignal (signal_name : string)        (* signal.signal(sig, signal_handler) *)
| Serve (port : Z) (reuse_address : bool)
| System (command_line : string)         (* os.system(command_line) *)
| Sleep (seconds : Z).                   (* time.sleep(seconds) *)

(** How [main] ends: it returns, [sys.exit(status)] is called, or an
    exception leaves it. *)
Inductive Ending :=
| Returns
| SysExit (status : Z)
| RaisesOSError (errno : option Z)
| RaisesKeyboardInterrupt.

Definition PORT : Z := 3000.

Definition newline : string := String (ascii_of_nat 10) "".

Definition stopped_line : string := newline ++ "🛑 Development server stopped".

(** The lines [main] prints before it starts the server. *)
Definition banner (script_directory : string) : list Action :=
  [ Say ("🚀 Starting FableFlow development server on port " ++ Py.str_of_Z PORT);
    Say ("📁 Serving static files from: "
         ++ os_path_join script_directory "frontend");
    Say "🔄 Proxying API requests to: http://localhost:8080";
    Say ("🌐 Frontend: http://localhost:" ++ Py.str_of_Z PORT);
    Say "🔧 Backend: http://localhost:8080";
    Say "";
    Say "Press Ctrl+C to stop" ].

Definition kill_command : string :=
  "lsof -ti:" ++ Py.str_of_Z PORT ++ " | xargs kill -9 2>/dev/null || true".

(** [signal_handler]: a line on the console, then [sys.exit(0)]. *)
Definition signal_handler : list Action * Ending :=
  ([Say stopped_line], SysExit 0).

(** The inner [try] of [main]: the one retry. *)
Definition retry (second : ServeEnd) : list Action * Ending :=
  match second with
  | Fails _ =>
      ([ Serve PORT true;
         Say ("❌ Still unable to bind to port " ++ Py.str_of_Z PORT
              ++ ". Please check for other processes.") ],
       SysExit 1)
  | Interrupt => ([Serve PORT true], RaisesKeyboardInterrupt)
  | Stopped => (Serve PORT true :: fst signal_handler, snd signal_handler)
  end.

(** [e.errno == n]. *)
Definition errno_is (errno : option Z) (n : Z) : bool :=
  match errno with
  | Some m => (m =? n)%Z
  | None => false
  end.

(** [main], given how the first run of the server ends and, if there is
    one, the second.  Signals are taken to arrive while the server runs:
    one that arrives during [os.system] or [time.sleep] is not part of
    this model. *)
Definition main (script_directory : string) (first second : ServeEnd)
  : list Action * Ending :=
  let start :=
    (banner script_directory ++ [OnSignal "SIGINT"; OnSignal "SIGTERM"]
     ++ [Serve PORT true])%list in
  match first with
  | Interrupt => ((start ++ [Say stopped_line])%list, Returns)
  | Stopped => ((start ++ fst signal_handler)%list, snd signal_handler)
  | Fails errno =>
      if errno_is errno 48 then
        ((start
          ++ [ Say ("❌ Port " ++ Py.str_of_Z PORT
                    ++ " is already in use. Trying to kill existing processes...");
               System kill_command;
               Say "🔄 Retrying in 2 seconds...";
               Sleep 2 ]
          ++ fst (retry second))%list,
         snd (retry second))
      else (start, RaisesOSError errno)
  end.

(** The first run ended with [OSError] and [errno] 48. *)
Definition address_in_use (first : ServeEnd) : bool :=
  match first with
  | Fails errno => errno_is errno 48
  | _ => false
  end.

(** The server runs and the [os.system] calls among the actions. *)
Fixpoint serve_count (l : list Action) : nat :=
  match l with
  | [] => 0
  | Serve _ _ :: r => S (serve_count r)
  | _ :: r => serve_count r
  end.

Fixpoint system_calls (l : list Action) : list string :=
  match l with
  | [] => []
  | System c :: r => c :: system_calls r
  | _ :: r => system_calls r
  end.



(** The handler object after a failed relay: what was on the wire before,
    then the 502 response; what was done before, then the printed line. *)
Definition failed_relay (E : Env) (req : Request) (before : list Wire)
    (e : Exn) (effs : list Effect) : Self :=
  mkSelf []
    (before
     ++ sent (send_error E req 502 (Some ("Backend connection failed: " ++ str e))))
    (effs ++ [Print ("Error proxying to backend: " ++ str e)]).

(** The handler object after [proxy_to_backend], case by case: the
    Content-Length is no integer; the body cannot be read; [urlopen]
    raises; the body of the answer cannot be read after its head went
    out; the answer is relayed. *)
Definition proxy_outcome (E : Env) (req : Request) : Self :=
  match content_length_value req with
  | inl text => failed_relay E req [] (ValueError text) []
  | inr n =>
      match read_failure E n with
      | Some e => failed_relay E req [] e []
      | None =>
          match urlopen_result E (outbound_request req n) with
          | inl e => failed_relay E req [] e [Urlopen (outbound_request req n)]
          | inr resp =>
              match read_error resp with
              | Some e =>
                  failed_relay E req (relayed_head E resp) e
                    [Urlopen (outbound_request req n)]
              | None =>
                  mkSelf [] (relayed E resp) [Urlopen (outbound_request req n)]
              end
          end
      end
  end.

(** * Properties *)

(** ** CORS preflight *)

(** C8: an OPTIONS request, whatever its path, is answered by [do_OPTIONS]
    alone: status 200, the CORS headers, an empty body, and nothing done to
    the backend or the file system. *)
Theorem options_answered_without_dispatch :
  forall (E : Env) (req : Request),
    command req = "OPTIONS" ->
    handle_one_request E req = do_OPTIONS E req
    /\ sent (handle_one_request E req)
    = [ StatusLine 200 (match responses E 200 with
                        | Some (short, _) => short
                        | None => ""
                        end);
        HeaderLine "Server" (version_string E);
        HeaderLine "Date" (date_time_string E);
        HeaderLine "Access-Control-Allow-Origin" "*";
        HeaderLine "Access-Control-Allow-Methods" "GET, POST, PUT, DELETE, OPTIONS";
        HeaderLine "Access-Control-Allow-Headers" "Content-Type, Authorization";
        EndHeaders ]
    /\ status_of (sent (handle_one_request E req)) = Some 200%Z
    /\ body_of (sent (handle_one_request E req)) = []
    /\ has_cors_headers (headers_of (sent (handle_one_request E req))) = true
    /\ performed (handle_one_request E req) = [].
Proof.
  intros E req Hcmd.
  unfold handle_one_request. rewrite Hcmd. simpl.
  repeat split; reflexivity.
Qed.

Lemma options_answered_without_dispatch_witness :
  let E := Sample.env Sample.no_files Sample.down in
  let req := mkRequest "OPTIONS" "/api/books" [("Origin", "http://localhost:5173")] [] in
  command req = "OPTIONS"
  /\ status_of (sent (handle_one_request E req)) = Some 200%Z
  /\ performed (handle_one_request E req) = [].
Proof.
  intros E req. split; [reflexivity|].
  destruct (options_answered_without_dispatch E req eq_refl)
    as (_ & _ & Hs & _ & _ & He).
  split; [exact Hs | exact He].
Defined.

(** ** The index responder *)

Lemma sent_send_error_status E req c message :
  status_of (sent (send_error E req c message)) = Some c.
Proof.
  unfold send_error.
  destruct (responses E c) as [[short long]|];
    destruct message as [m|];
    destruct ((200 <=? c)%Z && negb ((c =? 204)%Z || (c =? 205)%Z || (c =? 304)%Z));
    try destruct (negb (String.eqb (command req) "HEAD") && negb (length _ =? 0));
    reflexivity.
Qed.

Lemma sent_send_error_reason E req c m :
  reason_of (sent (send_error E req c (Some m))) = Some m.
Proof.
  unfold send_error.
  destruct (responses E c) as [[short long]|];
    destruct ((200 <=? c)%Z && negb ((c =? 204)%Z || (c =? 205)%Z || (c =? 304)%Z));
    try destruct (negb (String.eqb (command req) "HEAD") && negb (length _ =? 0));
    reflexivity.
Qed.

(** What [serve_index] sends, by the state of the template file. *)
Lemma sent_serve_index E req :
  sent (serve_index E req)
  = match fs E (index_path E) with
    | File content =>
        [ StatusLine 200 (match responses E 200 with
                          | Some (short, _) => short
                          | None => ""
                          end);
          HeaderLine "Server" (version_string E);
          HeaderLine "Date" (date_time_string E);
          HeaderLine "Content-Type" "text/html";
          HeaderLine "Access-Control-Allow-Origin" "*";
          HeaderLine "Access-Control-Allow-Methods" "GET, POST, PUT, DELETE, OPTIONS";
          HeaderLine "Access-Control-Allow-Headers" "Content-Type, Authorization";
          EndHeaders;
          Body content ]
    | Absent => sent (send_error E req 404 (Some "index.html not found"))
    | Unreadable error =>
        sent (send_error E req 500 (Some ("Error serving index: " ++ error)))
    | Dir _ =>
        sent (send_error E req 500
                (Some ("Error serving index: [Errno 21] Is a directory: "
                       ++ Py.repr (index_path E))))
    end.
Proof.
  unfold serve_index, sent, run, try_except, bind, path_exists, open_rb, perform.
  cbn [fst snd].
  destruct (fs E (index_path E)) as [|content|error|listing]; try reflexivity.
  - unfold send_error.
    destruct (responses E 404) as [[short long]|]; cbn;
      match goal with |- context [if ?b then _ else _] => destruct b end;
      reflexivity.
  - unfold send_error, str.
    destruct (responses E 500) as [[short long]|]; cbn;
      match goal with |- context [if ?b then _ else _] => destruct b end;
      reflexivity.
  - unfold send_error, str.
    destruct (responses E 500) as [[short long]|]; cbn;
      match goal with |- context [if ?b then _ else _] => destruct b end;
      reflexivity.
Qed.

(** C4, as the code has it: the status of the index responder is decided
    by the template file.  A readable file gives 200; a missing file gives
    404 with the reason "index.html not found"; a file that is there but
    cannot be opened gives 500. *)
Theorem index_status_by_template_state :
  forall (E : Env) (req : Request),
    status_of (sent (serve_index E req))
    = Some (match fs E (index_path E) with
            | File _ => 200
            | Absent => 404
            | Unreadable _ | Dir _ => 500
            end)%Z
    /\ reason_of (sent (serve_index E req))
       = match fs E (index_path E) with
         | File _ => Some (match responses E 200 with
                           | Some (short, _) => short
                           | None => ""
                           end)
         | Absent => Some "index.html not found"
         | Unreadable error => Some ("Error serving index: " ++ error)
         | Dir _ => Some ("Error serving index: [Errno 21] Is a directory: "
                          ++ Py.repr (index_path E))
         end.
Proof.
  intros E req. rewrite sent_serve_index.
  destruct (fs E (index_path E)) as [|content|error|listing];
    rewrite ?sent_send_error_status, ?sent_send_error_reason;
    split; reflexivity.
Qed.

(** C4 as stated fails: with no template file the status is 404, not 500. *)
Lemma missing_index_template_is_not_500 :
  ~ (forall (E : Env) (req : Request),
        fs E (index_path E) = Absent ->
        status_of (sent (serve_index E req)) = Some 500%Z).
Proof.
  intros H.
  specialize (H (Sample.env Sample.no_files Sample.down) (Sample.get "/") eq_refl).
  vm_compute in H. discriminate H.
Qed.

(** C9: a GET of [/] and a GET of any path under none of the prefixes are
    both answered by the index responder with the same response: status
    200, content type text/html, and the bytes of the template file as
    they are. *)
Theorem unmatched_get_returns_index_document :
  forall (E : Env) (root other : Request) (content : bytes),
    command root = "GET" -> path root = "/" ->
    command other = "GET" -> unmatched (path other) = true ->
    fs E (index_path E) = File content ->
    sent (handle_one_request E other) = sent (handle_one_request E root)
    /\ status_of (sent (handle_one_request E other)) = Some 200%Z
    /\ body_of (sent (handle_one_request E other)) = content
    /\ headers_get (headers_of (sent (handle_one_request E other))) "Content-Type"
       = Some "text/html"
    /\ fs_paths (performed (handle_one_request E other)) = [index_path E; index_path E].
Proof.
  intros E root other content Hroot Hpath Hother Hun Hfile.
  unfold unmatched in Hun.
  apply andb_prop in Hun as [Hun Hstatic].
  apply andb_prop in Hun as [Hapi Hread].
  apply negb_true_iff in Hapi, Hread, Hstatic.
  assert (Hr : handle_one_request E root = serve_index E root).
  { unfold handle_one_request, do_GET. rewrite Hroot, Hpath. reflexivity. }
  assert (Ho : handle_one_request E other = serve_index E other).
  { unfold handle_one_request, do_GET.
    rewrite Hother, Hapi, Hread, Hstatic. reflexivity. }
  rewrite Hr, Ho, !sent_serve_index, Hfile.
  repeat split; try reflexivity.
  - cbn. apply app_nil_r.
  - unfold serve_index, performed, run, try_except, bind, path_exists, open_rb, perform.
    cbn [fst snd]. rewrite Hfile. reflexivity.
Qed.

Lemma unmatched_get_returns_index_document_witness :
  let E := Sample.env Sample.files Sample.down in
  let root := Sample.get "/" in
  let other := Sample.get "/some/client/route" in
  sent (handle_one_request E other) = sent (handle_one_request E root)
  /\ body_of (sent (handle_one_request E other)) = Sample.index_html.
Proof.
  intros E root other.
  destruct (unmatched_get_returns_index_document E root other
              Sample.index_html
              eq_refl eq_refl eq_refl eq_refl eq_refl)
    as (Hsame & _ & Hbody & _).
  split; [exact Hsame | exact Hbody].
Defined.

(** ** The backend relay *)

Lemma send_error_after E req c message w effs :
  send_error E req c message (mkSelf [] w effs)
  = (Done tt, mkSelf [] (w ++ sent (send_error E req c message)) effs).
Proof.
  unfold send_error, sent, run.
  destruct (responses E c) as [[short long]|];
    destruct message as [m|];
    destruct ((200 <=? c)%Z && negb ((c =? 204)%Z || (c =? 205)%Z || (c =? 304)%Z));
    try destruct (negb (String.eqb (command req) "HEAD") && negb (length _ =? 0));
    unfold send_response, send_response_only, send_header, end_headers, buffer,
      flush_headers, wfile_write, bind, ret;
    cbn; rewrite <- ?app_assoc; reflexivity.
Qed.

Lemma send_error_run E req c message effs :
  send_error E req c message (mkSelf [] [] effs)
  = (Done tt, mkSelf [] (sent (send_error E req c message)) effs).
Proof. apply (send_error_after E req c message []). Qed.

Lemma copy_headers_run items :
  forall s,
    copy_headers items s
    = (Done tt,
       mkSelf (headers_buffer s ++ header_lines (relayed_headers items))
              (wfile s) (effects s)).
Proof.
  induction items as [|[header value] rest IH]; intros [buf w effs].
  - cbn. rewrite app_nil_r. reflexivity.
  - cbn [copy_headers relayed_headers filter fst].
    unfold bind at 1.
    destruct (excluded header); cbn [negb].
    + unfold ret. rewrite IH. reflexivity.
    + unfold send_header, buffer. rewrite IH. cbn.
      rewrite <- app_assoc. reflexivity.
Qed.

Lemma relayed_is_head_then_body E resp :
  relayed E resp = (relayed_head E resp ++ [Body (payload resp)])%list.
Proof.
  unfold relayed, relayed_head. cbn [app]. rewrite <- !app_assoc. reflexivity.
Qed.

(** The handler object after [proxy_to_backend]. *)
Lemma proxy_to_backend_fresh E req :
  proxy_to_backend E req fresh = (Done tt, proxy_outcome E req).
Proof.
  unfold proxy_outcome, failed_relay, read_failure.
  destruct (content_length_value req) as [text|n] eqn:Hclv.
  { unfold proxy_to_backend, try_except, prepare_req_data, content_length_of,
      rfile_read, urlopen, response_read, fresh, bind, raise, ret, perform.
    rewrite Hclv. cbn [effects headers_buffer wfile app].
    rewrite send_error_after. reflexivity. }
  assert (Hprep : prepare_req_data E req fresh
                  = match (if (0 <? n)%Z then read_refused E n else None) with
                    | Some e => (Raised e, fresh)
                    | None => (Done (data (outbound_request req n)), fresh)
                    end).
  { unfold prepare_req_data, content_length_of, rfile_read, outbound_request,
      bind, raise, ret. rewrite Hclv. cbn [data].
    destruct (0 <? n)%Z; [destruct (read_refused E n)|]; reflexivity. }
  unfold proxy_to_backend, try_except.
  unfold bind at 1. rewrite Hprep.
  destruct (if (0 <? n)%Z then read_refused E n else None) as [e|].
  { unfold bind, perform, fresh. cbn [effects headers_buffer wfile app].
    rewrite send_error_after. reflexivity. }
  replace (mkOutbound (backend_url req) (data (outbound_request req n))
             (command req) (dict_of_headers (headers req)))
    with (outbound_request req n) by reflexivity.
  set (r := outbound_request req n).
  unfold urlopen, response_read, fresh.
  destruct (urlopen_result E r) as [e|resp] eqn:Hres.
  { unfold bind, raise, ret, perform. cbn [effects headers_buffer wfile app].
    rewrite send_error_after. reflexivity. }
  unfold send_response, send_response_only, send_cors_headers, send_header,
    end_headers, buffer, flush_headers, wfile_write, bind, ret, raise, perform.
  cbn [effects headers_buffer wfile app]. rewrite ?Hres.
  cbn [effects headers_buffer wfile app].
  rewrite copy_headers_run. cbn [effects headers_buffer wfile app].
  destruct (read_error resp) as [e|].
  - rewrite send_error_after. unfold relayed_head.
    cbn [effects headers_buffer wfile app].
    rewrite <- ?app_assoc. cbn [app]. reflexivity.
  - unfold relayed. cbn [effects headers_buffer wfile app].
    rewrite <- ?app_assoc. cbn [app]. reflexivity.
Qed.

Lemma sent_proxy_to_backend E req :
  sent (proxy_to_backend E req) = wfile (proxy_outcome E req).
Proof. unfold sent, run. rewrite proxy_to_backend_fresh. reflexivity. Qed.

Lemma performed_proxy_to_backend E req :
  performed (proxy_to_backend E req) = effects (proxy_outcome E req).
Proof. unfold performed, run. rewrite proxy_to_backend_fresh. reflexivity. Qed.

Lemma urlopen_calls_performed_proxy E req :
  urlopen_calls (performed (proxy_to_backend E req))
  = match content_length_value req with
    | inl _ => []
    | inr n =>
        match read_failure E n with
        | Some _ => []
        | None => [outbound_request req n]
        end
    end.
Proof.
  rewrite performed_proxy_to_backend. unfold proxy_outcome.
  destruct (content_length_value req) as [text|n]; [reflexivity|].
  destruct (read_failure E n); [reflexivity|].
  destruct (urlopen_result E (outbound_request req n)) as [e|resp];
    [reflexivity|].
  destruct (read_error resp); reflexivity.
Qed.

(** An answer with a 2xx status whose body can be read is relayed with
    that status, the CORS headers, the backend's headers minus the three
    excluded ones, and the backend's body. *)
Lemma proxy_relays_2xx_answer E req n resp :
  content_length_value req = inr n ->
  read_failure E n = None ->
  backend E (outbound_request req n) = Answered resp ->
  (200 <= code resp < 300)%Z ->
  read_error resp = None ->
  sent (proxy_to_backend E req) = relayed E resp
  /\ status_of (sent (proxy_to_backend E req)) = Some (code resp).
Proof.
  intros Hn Hread Hb Hc Hbody.
  rewrite sent_proxy_to_backend. unfold proxy_outcome.
  rewrite Hn, Hread.
  unfold urlopen_result. rewrite Hb.
  replace ((200 <=? code resp)%Z && (code resp <? 300)%Z) with true
    by (symmetry; apply andb_true_iff; split;
        [apply Z.leb_le | apply Z.ltb_lt]; lia).
  rewrite Hbody. split; reflexivity.
Qed.

(** An answer with any other status, redirects that urllib follows apart,
    makes [urlopen] raise, and the client is sent 502. *)
Lemma proxy_turns_error_status_into_502 E req n resp :
  content_length_value req = inr n ->
  read_failure E n = None ->
  backend E (outbound_request req n) = Answered resp ->
  (code resp < 200 \/ 300 <= code resp)%Z ->
  redirect_status (code resp) = false ->
  status_of (sent (proxy_to_backend E req)) = Some 502%Z
  /\ reason_of (sent (proxy_to_backend E req))
     = Some ("Backend connection failed: HTTP Error "
             ++ Py.str_of_Z (code resp) ++ ": " ++ msg resp).
Proof.
  intros Hn Hread Hb Hc Hr.
  rewrite sent_proxy_to_backend. unfold proxy_outcome, failed_relay.
  rewrite Hn, Hread.
  unfold urlopen_result. rewrite Hb, Hr.
  replace ((200 <=? code resp)%Z && (code resp <? 300)%Z) with false.
  - cbn [andb wfile app].
    rewrite sent_send_error_status, sent_send_error_reason.
    split; reflexivity.
  - symmetry. apply andb_false_iff.
    destruct Hc; [left; apply Z.leb_gt | right; apply Z.ltb_ge]; lia.
Qed.

(** C1, at a failing input: the backend answers GET /api/books/999 with
    404 Not Found; the client is sent 502, with a reason that speaks of a
    failed connection. *)
Theorem backend_404_reaches_client_as_502 :
  let E := Sample.env Sample.files
             (Sample.answer 404 "Not Found"
                [("Content-Type", "application/json")] "{}") in
  let req := Sample.get "/api/books/999" in
  status_of (sent (handle_one_request E req)) = Some 502%Z
  /\ reason_of (sent (handle_one_request E req))
     = Some "Backend connection failed: HTTP Error 404: Not Found"
  /\ urlopen_calls (performed (handle_one_request E req))
     = [ mkOutbound "http://localhost:8080/api/books/999" None "GET"
           [("Host", "localhost:3000")] ].
Proof. vm_compute. repeat split; reflexivity. Qed.

(** C6: when the backend cannot be reached, the client is sent 502 with a
    reason phrase that contains the description of the failure, and the
    backend was tried exactly once.  The request is one that gets as far
    as the backend: its Content-Length is absent or an integer, and its
    body, when it has one, could be read. *)
Theorem unreachable_backend_gives_502_once :
  forall (E : Env) (req : Request) (n : Z) (why : string),
    content_length_value req = inr n ->
    read_failure E n = None ->
    backend E (outbound_request req n) = Unreachable why ->
    sent (proxy_to_backend E req)
    = sent (send_error E req 502
              (Some ("Backend connection failed: <urlopen error " ++ why ++ ">")))
    /\ status_of (sent (proxy_to_backend E req)) = Some 502%Z
    /\ reason_of (sent (proxy_to_backend E req))
       = Some ("Backend connection failed: <urlopen error " ++ why ++ ">")
    /\ urlopen_calls (performed (proxy_to_backend E req))
       = [outbound_request req n].
Proof.
  intros E req n why Hn Hread Hb.
  rewrite urlopen_calls_performed_proxy, sent_proxy_to_backend.
  unfold proxy_outcome, failed_relay.
  rewrite Hn, Hread.
  unfold urlopen_result. rewrite Hb. cbn [wfile app str].
  rewrite sent_send_error_status, sent_send_error_reason.
  repeat split; reflexivity.
Qed.

Lemma unreachable_backend_gives_502_once_witness :
  let E := Sample.env Sample.files Sample.down in
  let req := Sample.get "/api/books" in
  status_of (sent (proxy_to_backend E req)) = Some 502%Z
  /\ reason_of (sent (proxy_to_backend E req))
     = Some "Backend connection failed: <urlopen error [Errno 111] Connection refused>"
  /\ length (urlopen_calls (performed (proxy_to_backend E req))) = 1.
Proof.
  intros E req.
  destruct (unreachable_backend_gives_502_once E req
              0%Z "[Errno 111] Connection refused"
              eq_refl eq_refl eq_refl) as (_ & Hs & Hr & Hc).
  split; [exact Hs|]. split; [exact Hr|]. rewrite Hc. reflexivity.
Defined.

(** C10: the body given to the backend is decided by the Content-Length
    header alone.  Without the header, or with a value that is not
    positive (0 in particular), no body is forwarded, whatever the method
    and whatever waits on the stream; with a positive value [n] the body
    is the first [n] bytes read from the stream.  (A value that is no
    integer, or a positive one so large that the read is refused, ends
    the request before the backend is called: nothing is forwarded.) *)
Theorem forwarded_body_is_content_length_prefix :
  forall (E : Env) (req : Request),
    map data (urlopen_calls (performed (proxy_to_backend E req)))
    = match headers_get (headers req) "Content-Length" with
      | None => [None]
      | Some v =>
          match Py.int v with
          | inr n =>
              if (0 <? n)%Z
              then match read_refused E n with
                   | None => [Some (firstn (Z.to_nat n) (rfile req))]
                   | Some _ => []
                   end
              else [None]
          | inl _ => []
          end
      end.
Proof.
  intros E req. rewrite urlopen_calls_performed_proxy.
  unfold content_length_value, read_failure, outbound_request.
  destruct (headers_get (headers req) "Content-Length") as [v|];
    [destruct (Py.int v) as [text|n]|]; try reflexivity.
  destruct (0 <? n)%Z; [destruct (read_refused E n)|]; reflexivity.
Qed.

(** ** CORS headers *)

(** The responses the handler builds itself carry the three headers. *)
Lemma relayed_answer_has_cors_headers E resp :
  has_cors_headers (headers_of (relayed E resp)) = true.
Proof. reflexivity. Qed.

Lemma index_document_has_cors_headers E req content :
  fs E (index_path E) = File content ->
  has_cors_headers (headers_of (sent (serve_index E req))) = true.
Proof. intros H. rewrite sent_serve_index, H. reflexivity. Qed.

(** C2, at failing inputs: the 404 that [do_POST] sends for a path outside
    [/api/], a file served from the static root, and the 502 of the relay
    carry none of the CORS headers. *)
Theorem error_and_static_responses_lack_cors_headers :
  let E := Sample.env Sample.files Sample.down in
  let refused := sent (handle_one_request E (Sample.post "/nope" "{}")) in
  let script := sent (handle_one_request E (Sample.get "/static/app.js")) in
  let gateway := sent (handle_one_request E (Sample.get "/api/books")) in
  (status_of refused = Some 404%Z
   /\ headers_get (headers_of refused) "Access-Control-Allow-Origin" = None
   /\ has_cors_headers (headers_of refused) = false)
  /\ (status_of script = Some 200%Z
      /\ headers_get (headers_of script) "Access-Control-Allow-Origin" = None
      /\ has_cors_headers (headers_of script) = false)
  /\ (status_of gateway = Some 502%Z
      /\ headers_get (headers_of gateway) "Access-Control-Allow-Origin" = None
      /\ has_cors_headers (headers_of gateway) = false).
Proof. vm_compute. repeat split; reflexivity. Qed.

(** ** Routing *)

Lemma performed_send_error E req c message :
  performed (send_error E req c message) = [].
Proof.
  unfold performed, run. unfold fresh. rewrite send_error_run. reflexivity.
Qed.

(** C3, as the code has it: for GET and POST the handler is the one the
    routing table names.  GET goes to the backend under [/api/] and
    [/read/], to the static root under [/static/], to the index document
    otherwise; POST goes to the backend under [/api/] only, and is refused
    with 404 everywhere else without a call to the backend or a look at
    the file system. *)
Theorem routing_by_method_and_prefix :
  forall (E : Env) (req : Request),
    command req = "GET" \/ command req = "POST" ->
    handle_one_request E req = dispatch E req (route (command req) (path req))
    /\ status_of (sent (dispatch E req Refused404)) = Some 404%Z
    /\ performed (dispatch E req Refused404) = [].
Proof.
  intros E req Hcmd. split; [|split].
  - unfold handle_one_request, route, do_GET, do_POST.
    destruct Hcmd as [H|H]; rewrite H; cbn [String.eqb Ascii.eqb Bool.eqb];
      destruct (Py.startswith (path req) "/api/");
      destruct (Py.startswith (path req) "/read/");
      destruct (Py.startswith (path req) "/static/"); reflexivity.
  - apply sent_send_error_status.
  - apply performed_send_error.
Qed.

Lemma routing_by_method_and_prefix_witness :
  let E := Sample.env Sample.files
             (Sample.answer 200 "OK" [("Content-Type", "text/html")] "page") in
  let req := Sample.post "/read/story/1" "{}" in
  handle_one_request E req = send_error E req 404 None
  /\ status_of (sent (handle_one_request E req)) = Some 404%Z.
Proof.
  intros E req.
  destruct (routing_by_method_and_prefix E req (or_intror eq_refl))
    as (Hroute & Hstatus & _).
  split; [exact Hroute | rewrite Hroute; exact Hstatus].
Defined.

(** C3 as stated fails: a POST under [/read/] is not proxied.  The backend
    would answer 200; the client is sent 404 and the backend is not
    called. *)
Lemma post_under_read_is_not_proxied :
  ~ (forall (E : Env) (req : Request),
        Py.startswith (path req) "/read/" = true ->
        run (handle_one_request E req) = run (proxy_to_backend E req)).
Proof.
  intros H.
  specialize (H (Sample.env Sample.files
                   (Sample.answer 200 "OK" [("Content-Type", "text/html")] "page"))
                (Sample.post "/read/story/1" "{}") eq_refl).
  apply (f_equal (fun r => status_of (fst r))) in H.
  vm_compute in H. discriminate H.
Qed.

(** ** The headers given to the backend *)

Lemma dict_set_fresh d k v :
  ~ In k (map fst d) -> dict_set d k v = (d ++ [(k, v)])%list.
Proof.
  induction d as [|[k' v'] d IH]; intros Hnot; [reflexivity|].
  cbn [dict_set app]. cbn [map fst In] in Hnot.
  destruct (String.eqb k' k) eqn:Heq.
  - apply String.eqb_eq in Heq. exfalso. apply Hnot. left. exact Heq.
  - rewrite IH; [reflexivity|]. intros Hin. apply Hnot. right. exact Hin.
Qed.

Lemma headers_get_skip (h1 : Headers) k v (h2 : Headers) :
  ~ In (Py.lower k) (map (fun kv => Py.lower (fst kv)) h1) ->
  headers_get (h1 ++ (k, v) :: h2)%list k = Some v.
Proof.
  induction h1 as [|[k1 v1] h1 IH]; intros Hnot; cbn [app headers_get].
  - rewrite String.eqb_refl. reflexivity.
  - cbn [map fst In] in Hnot.
    destruct (String.eqb (Py.lower k1) (Py.lower k)) eqn:Heq.
    + apply String.eqb_eq in Heq. exfalso. apply Hnot. left. exact Heq.
    + apply IH. intros Hin. apply Hnot. right. exact Hin.
Qed.

Lemma distinct_NoDup l : distinct l = true -> NoDup l.
Proof.
  induction l as [|x r IH]; intros H; [constructor|].
  cbn [distinct] in H. apply andb_prop in H as [Hx Hr].
  constructor; [|apply IH; exact Hr].
  intros Hin. apply negb_true_iff in Hx.
  assert (existsb (String.eqb x) r = true) as Hex.
  { apply existsb_exists. exists x. split; [exact Hin | apply String.eqb_refl]. }
  congruence.
Qed.

Lemma dict_fold_distinct (h2 : Headers) :
  forall h1 : Headers,
    NoDup (map (fun kv => Py.lower (fst kv)) (h1 ++ h2)%list) ->
    fold_left (dict_step (h1 ++ h2)%list) (headers_keys h2) h1 = (h1 ++ h2)%list.
Proof.
  induction h2 as [|[k v] h2 IH]; intros h1 Hnd.
  - cbn. rewrite app_nil_r. reflexivity.
  - cbn [headers_keys map fst fold_left].
    assert (Hnot : ~ In (Py.lower k) (map (fun kv => Py.lower (fst kv)) h1)).
    { rewrite map_app in Hnd. cbn [map fst] in Hnd.
      apply NoDup_remove_2 in Hnd. intros Hin. apply Hnd.
      apply in_or_app. left. exact Hin. }
    unfold dict_step at 2. rewrite (headers_get_skip h1 k v h2 Hnot).
    rewrite dict_set_fresh.
    + replace (h1 ++ (k, v) :: h2)%list with ((h1 ++ [(k, v)]) ++ h2)%list
        by (rewrite <- app_assoc; reflexivity).
      apply IH. rewrite <- app_assoc. exact Hnd.
    + intros Hin. apply Hnot.
      apply in_map_iff in Hin as [[k1 v1] [Hk Hin]]. cbn in Hk. subst k1.
      apply in_map_iff. exists (k, v1). split; [reflexivity | exact Hin].
Qed.

(** With pairwise distinct names, [dict(self.headers)] is the header list
    itself. *)
Lemma dict_of_headers_distinct h :
  distinct_names h = true -> dict_of_headers h = h.
Proof.
  intros H. apply distinct_NoDup in H.
  exact (dict_fold_distinct h [] H).
Qed.

Lemma dict_set_keys_present d k v :
  In k (map fst d) -> map fst (dict_set d k v) = map fst d.
Proof.
  induction d as [|[k' v'] d IH]; intros Hin; [destruct Hin|].
  cbn [dict_set]. destruct (String.eqb k' k) eqn:Heq; [reflexivity|].
  cbn [map fst]. f_equal. apply IH.
  destruct Hin as [Hk|Hin]; [|exact Hin].
  cbn in Hk. subst k'. rewrite String.eqb_refl in Heq. discriminate Heq.
Qed.

Lemma dict_set_entries d k v k' v' :
  In (k', v') (dict_set d k v) -> (k' = k /\ v' = v) \/ In (k', v') d.
Proof.
  induction d as [|[k1 v1] d IH]; cbn [dict_set].
  - intros [H|[]]. inversion H. left. split; reflexivity.
  - destruct (String.eqb k1 k) eqn:Heq.
    + apply String.eqb_eq in Heq. subst k1.
      intros [H|H]; [inversion H; left; split; reflexivity | right; right; exact H].
    + intros [H|H]; [right; left; exact H|].
      destruct (IH H) as [Hl|Hr]; [left; exact Hl | right; right; exact Hr].
Qed.

Lemma dict_set_keys_NoDup d k v :
  NoDup (map fst d) -> NoDup (map fst (dict_set d k v)).
Proof.
  intros Hnd. destruct (in_dec string_dec k (map fst d)) as [Hin|Hnot].
  - rewrite dict_set_keys_present by exact Hin. exact Hnd.
  - rewrite dict_set_fresh by exact Hnot. rewrite map_app. cbn [map fst].
    apply NoDup_app; [exact Hnd | repeat constructor; intros [] |].
    intros a Ha [Hk|[]]. subst a. exact (Hnot Ha).
Qed.

Lemma dict_step_keys_grow h d k k' :
  In k (map fst d) -> In k (map fst (dict_step h d k')).
Proof.
  intros Hin. unfold dict_step. destruct (headers_get h k') as [v|]; [|exact Hin].
  destruct (in_dec string_dec k' (map fst d)) as [Hin'|Hnot].
  - rewrite dict_set_keys_present by exact Hin'. exact Hin.
  - rewrite dict_set_fresh by exact Hnot. rewrite map_app.
    apply in_or_app. left. exact Hin.
Qed.

Lemma dict_step_key_added h d k v :
  headers_get h k = Some v -> In k (map fst (dict_step h d k)).
Proof.
  intros Hget. unfold dict_step. rewrite Hget.
  destruct (in_dec string_dec k (map fst d)) as [Hin|Hnot].
  - rewrite dict_set_keys_present by exact Hin. exact Hin.
  - rewrite dict_set_fresh by exact Hnot. rewrite map_app.
    apply in_or_app. right. left. reflexivity.
Qed.

(** What the loop of [dict(message)] keeps true. *)
Lemma dict_fold_invariant h ks :
  forall d,
    NoDup (map fst d) ->
    (forall k v, In (k, v) d -> headers_get h k = Some v) ->
    NoDup (map fst (fold_left (dict_step h) ks d))
    /\ (forall k v, In (k, v) (fold_left (dict_step h) ks d) ->
                    headers_get h k = Some v
                    /\ (In k (map fst d) \/ In k ks))
    /\ (forall k, In k (map fst d) \/ (In k ks /\ headers_get h k <> None) ->
                  In k (map fst (fold_left (dict_step h) ks d))).
Proof.
  induction ks as [|k0 ks IH]; intros d Hnd Hval; cbn [fold_left].
  - split; [exact Hnd|]. split.
    + intros k v Hin. split; [apply Hval; exact Hin|].
      left. apply in_map_iff. exists (k, v). split; [reflexivity | exact Hin].
    + intros k [Hin|[[] _]]. exact Hin.
  - assert (Hnd' : NoDup (map fst (dict_step h d k0))).
    { unfold dict_step. destruct (headers_get h k0); [|exact Hnd].
      apply dict_set_keys_NoDup. exact Hnd. }
    assert (Hval' : forall k v, In (k, v) (dict_step h d k0) ->
                                headers_get h k = Some v
                                /\ (In k (map fst d) \/ k = k0)).
    { intros k v Hin. unfold dict_step in Hin.
      destruct (headers_get h k0) as [v0|] eqn:Hget.
      - apply dict_set_entries in Hin as [[Hk Hv]|Hin].
        + subst k v. split; [exact Hget | right; reflexivity].
        + split; [apply Hval; exact Hin|]. left.
          apply in_map_iff. exists (k, v). split; [reflexivity | exact Hin].
      - split; [apply Hval; exact Hin|]. left.
        apply in_map_iff. exists (k, v). split; [reflexivity | exact Hin]. }
    destruct (IH (dict_step h d k0) Hnd' (fun k v H => proj1 (Hval' k v H)))
      as (IH1 & IH2 & IH3).
    split; [exact IH1|]. split.
    + intros k v Hin. destruct (IH2 k v Hin) as [Hget [Hk|Hk]].
      * split; [exact Hget|].
        apply in_map_iff in Hk as [[k1 v1] [Hk1 Hin1]]. cbn in Hk1. subst k1.
        destruct (Hval' k v1 Hin1) as [_ [Hd|Hk0]].
        -- left. exact Hd.
        -- right. left. symmetry. exact Hk0.
      * split; [exact Hget|]. right. right. exact Hk.
    + intros k [Hin|[[Hk|Hin] Hsome]]; apply IH3.
      * left. apply dict_step_keys_grow. exact Hin.
      * subst k0. left. destruct (headers_get h k) as [v|] eqn:Hget.
        -- apply (dict_step_key_added h d k v Hget).
        -- exfalso. apply Hsome. reflexivity.
      * right. split; [exact Hin | exact Hsome].
Qed.

Lemma headers_get_of_key h k :
  In k (headers_keys h) -> headers_get h k <> None.
Proof.
  induction h as [|[k1 v1] h IH]; intros Hin; [destruct Hin|].
  cbn [headers_get]. destruct (String.eqb (Py.lower k1) (Py.lower k)) eqn:Heq.
  - discriminate.
  - apply IH. destruct Hin as [Hk|Hin]; [|exact Hin].
    cbn in Hk. subst k1. rewrite String.eqb_refl in Heq. discriminate Heq.
Qed.

(** [dict(self.headers)] has one entry for every name as it is spelled in
    the request, and the entry holds the first value the request has under
    that name, letter case disregarded. *)
Lemma dict_of_headers_first_values h :
  NoDup (map fst (dict_of_headers h))
  /\ (forall k v, In (k, v) (dict_of_headers h) <->
                  In k (headers_keys h) /\ headers_get h k = Some v).
Proof.
  destruct (dict_fold_invariant h (headers_keys h) [] (NoDup_nil _)
              (fun k v (H : In (k, v) []) => match H with end))
    as (Hnd & Hsound & Hkeys).
  fold (dict_of_headers h) in Hnd, Hsound, Hkeys.
  split; [exact Hnd|]. intros k v. split.
  - intros Hin. destruct (Hsound k v Hin) as [Hget [[]|Hk]].
    split; [exact Hk | exact Hget].
  - intros [Hk Hget].
    assert (Hin : In k (map fst (dict_of_headers h))).
    { apply Hkeys. right. split; [exact Hk | apply headers_get_of_key; exact Hk]. }
    apply in_map_iff in Hin as [[k1 v1] [Hk1 Hin]]. cbn in Hk1. subst k1.
    destruct (Hsound k v1 Hin) as [Hget1 _].
    rewrite Hget in Hget1. inversion Hget1. subst v1. exact Hin.
Qed.

(** What the relay does forward as it came: for a request with an integer
    Content-Length (or none) whose body could be read, the backend is
    called once, with the method and the path (query string included) of
    the inbound request behind [http://localhost:8080], the first
    Content-Length bytes of the stream as body (none when the length is
    not positive), and [dict(self.headers)] as headers.  That dictionary
    is the inbound header list itself when no name occurs twice. *)
Lemma proxy_outbound_request_shape :
  forall (E : Env) (req : Request) (n : Z),
    content_length_value req = inr n ->
    read_failure E n = None ->
    urlopen_calls (performed (proxy_to_backend E req))
    = [ {| full_url := "http://localhost:8080" ++ path req;
           data := if (0 <? n)%Z
                   then Some (firstn (Z.to_nat n) (rfile req)) else None;
           method := command req;
           out_headers := dict_of_headers (headers req) |} ]
    /\ (distinct_names (headers req) = true ->
        dict_of_headers (headers req) = headers req)
    /\ (forall k v, In (k, v) (dict_of_headers (headers req)) <->
                    In k (headers_keys (headers req))
                    /\ headers_get (headers req) k = Some v).
Proof.
  intros E req n Hn Hread.
  rewrite urlopen_calls_performed_proxy, Hn, Hread.
  split; [reflexivity|]. split.
  - apply dict_of_headers_distinct.
  - apply dict_of_headers_first_values.
Qed.

Lemma proxy_outbound_request_shape_example :
  let E := Sample.env Sample.files
             (Sample.answer 200 "OK" [("Content-Type", "application/json")] "{}") in
  let req := Sample.post "/api/books?draft=1" "{}" in
  urlopen_calls (performed (proxy_to_backend E req))
  = [ {| full_url := "http://localhost:8080/api/books?draft=1";
         data := Some (Sample.b "{}");
         method := "POST";
         out_headers := headers req |} ].
Proof.
  intros E req.
  destruct (proxy_outbound_request_shape E req 2%Z eq_refl eq_refl)
    as (Hcall & Hsame & _).
  rewrite Hcall, (Hsame eq_refl). reflexivity.
Defined.

(** C5, at a failing input: GET /api/books arrives with two Accept
    headers.  The backend is called with the method, the path and (no)
    body of the inbound request, but of the two Accept headers only the
    first is forwarded: the value application/json never reaches the
    backend, so the headers are not forwarded as they came. *)
Theorem repeated_header_is_not_forwarded_as_is :
  let E := Sample.env Sample.files
             (Sample.answer 200 "OK" [("Content-Type", "application/json")] "[]") in
  let req := mkRequest "GET" "/api/books"
               [("Host", "localhost:3000");
                ("Accept", "text/html"); ("Accept", "application/json")] [] in
  urlopen_calls (performed (handle_one_request E req))
  = [ mkOutbound "http://localhost:8080/api/books" None "GET"
        [("Host", "localhost:3000"); ("Accept", "text/html")] ]
  /\ In ("Accept", "application/json") (headers req)
  /\ forall r, In r (urlopen_calls (performed (handle_one_request E req))) ->
               ~ In ("Accept", "application/json") (out_headers r)
               /\ out_headers r <> headers req.
Proof.
  intros E req.
  assert (Hcalls : urlopen_calls (performed (handle_one_request E req))
                   = [ mkOutbound "http://localhost:8080/api/books" None "GET"
                         [("Host", "localhost:3000"); ("Accept", "text/html")] ])
    by (vm_compute; reflexivity).
  split; [exact Hcalls|]. split.
  - right. right. left. reflexivity.
  - intros r Hr. rewrite Hcalls in Hr.
    destruct Hr as [<-|[]]. cbn [out_headers]. split.
    + intros [H|[H|[]]]; discriminate H.
    + subst req. cbn [headers]. discriminate.
Qed.

(** ** The static root *)

Lemma append_assoc (a b c : string) : (a ++ b) ++ c = a ++ (b ++ c).
Proof. induction a as [|x a IH]; cbn; [reflexivity | rewrite IH; reflexivity]. Qed.

Lemma append_nil_r (a : string) : a ++ "" = a.
Proof. induction a as [|x a IH]; cbn; [reflexivity | rewrite IH; reflexivity]. Qed.

Lemma last_char_append (a b : string) :
  b <> "" -> last_char (a ++ b) = last_char b.
Proof.
  intros Hb. induction a as [|x a IH]; [reflexivity|].
  cbn [append last_char]. rewrite IH.
  destruct (a ++ b) eqn:Hab; [|reflexivity].
  destruct a; cbn in Hab; [contradiction | discriminate Hab].
Qed.

Lemma last_char_without_slash (w : string) :
  Py.contains "/" w = false -> last_char w <> Some "/"%char.
Proof.
  induction w as [|x w IH]; cbn [Py.contains last_char]; [discriminate|].
  intros H. apply orb_false_iff in H as [Hx Hw].
  destruct w as [|y w'].
  - intros Heq. inversion Heq. subst x. cbn in Hx. discriminate Hx.
  - apply IH. exact Hw.
Qed.

Lemma no_slash_at_end (a w : string) :
  w <> "" -> Py.contains "/" w = false -> ends_with_slash (a ++ w) = false.
Proof.
  intros Hw Hc. unfold ends_with_slash. rewrite last_char_append by exact Hw.
  pose proof (last_char_without_slash w Hc) as Hl.
  destruct (last_char w) as [c|]; [|reflexivity].
  destruct (Ascii.eqb c "/") eqn:Heq; [|reflexivity].
  apply Ascii.eqb_eq in Heq. subst c. contradiction Hl. reflexivity.
Qed.

Lemma slash_at_end (a : string) : ends_with_slash (a ++ "/") = true.
Proof.
  unfold ends_with_slash. rewrite last_char_append by discriminate. reflexivity.
Qed.

Lemma append_not_empty (a w : string) : w <> "" -> a ++ w <> "".
Proof. intros Hw. destruct a; cbn; [exact Hw | discriminate]. Qed.

(** The pieces of a split hold no separator. *)
Lemma split_pieces_without_sep sep s :
  Forall (fun w => Py.contains sep w = false) (Py.split sep s).
Proof.
  induction s as [|a r IH]; cbn [Py.split].
  - repeat constructor.
  - destruct (Ascii.eqb a sep) eqn:Heq.
    + constructor; [reflexivity | exact IH].
    + destruct (Py.split sep r) as [|w ws]; [repeat constructor; cbn; rewrite Heq; reflexivity|].
      inversion IH as [|? ? Hw Hws]; subst.
      constructor; [|exact Hws]. cbn. rewrite Heq, Hw. reflexivity.
Qed.

Lemma split_plain_word (w : string) :
  Py.contains "/" w = false -> Py.split "/" w = [w].
Proof.
  induction w as [|a r IH]; cbn [Py.contains Py.split]; [reflexivity|].
  intros H. apply orb_false_iff in H as [Ha Hr].
  rewrite Ha, (IH Hr). reflexivity.
Qed.

Lemma split_word_then_slash (w r : string) :
  Py.contains "/" w = false ->
  Py.split "/" (w ++ String "/" r) = w :: Py.split "/" r.
Proof.
  induction w as [|a w IH]; cbn [Py.contains append]; intros H.
  - reflexivity.
  - apply orb_false_iff in H as [Ha Hw].
    cbn [Py.split]. rewrite Ha, (IH Hw). reflexivity.
Qed.

Lemma dirname_plain_word (w : string) :
  Py.contains "/" w = false -> dirname w = "".
Proof.
  intros H. unfold dirname.
  assert (Hu : upto_last_slash w = "").
  { destruct w as [|a r]; [reflexivity|]. cbn [upto_last_slash]. rewrite H. reflexivity. }
  rewrite Hu. reflexivity.
Qed.

Lemma startswith_slash_plain_word (w : string) :
  Py.contains "/" w = false -> Py.startswith w "/" = false.
Proof.
  destruct w as [|a r]; [reflexivity|]. cbn [Py.contains].
  intros H. apply orb_false_iff in H as [Ha _].
  unfold Py.startswith. cbn [String.prefix].
  destruct (ascii_dec "/" a) as [Heq|Hne]; [|reflexivity].
  subst a. cbn in Ha. discriminate Ha.
Qed.

Lemma segments_snoc ws w : segments (ws ++ [w]) = segments ws ++ "/" ++ w.
Proof.
  induction ws as [|x ws IH]; cbn [segments app].
  - rewrite append_nil_r. reflexivity.
  - rewrite IH. cbn [append]. rewrite append_assoc. reflexivity.
Qed.

(** Joining a plain name to a path that does not end in a slash. *)
Lemma os_path_join_plain (a w : string) :
  a <> "" -> ends_with_slash a = false ->
  Py.contains "/" w = false ->
  os_path_join a w = a ++ "/" ++ w.
Proof.
  intros Ha He Hw. unfold os_path_join.
  rewrite (startswith_slash_plain_word w Hw), He.
  destruct (String.eqb a "") eqn:Heq; [|reflexivity].
  apply String.eqb_eq in Heq. contradiction.
Qed.

Lemma directory_shape E :
  directory E <> "" /\ ends_with_slash (directory E) = false.
Proof.
  unfold directory, os_path_join.
  change (Py.startswith "frontend" "/") with false. cbv iota.
  destruct (String.eqb (script_dir E) "" || ends_with_slash (script_dir E)).
  - split; [apply append_not_empty; discriminate|].
    apply no_slash_at_end; [discriminate | reflexivity].
  - split; [apply append_not_empty; discriminate|].
    rewrite <- append_assoc.
    apply no_slash_at_end; [discriminate | reflexivity].
Qed.

(** The loop of [translate_path]: from a path under [root] made of plain
    names, pieces without a slash lead to another such path. *)
Lemma translate_words_shape root words :
  root <> "" -> ends_with_slash root = false ->
  Forall (fun w => w <> "" /\ Py.contains "/" w = false) words ->
  forall ws,
    Forall simple_name ws ->
    exists ws',
      fold_left translate_word words (root ++ segments ws)
      = root ++ segments ws'
      /\ Forall simple_name ws'.
Proof.
  intros Hroot Hend. induction words as [|w words IH]; intros Hwords ws Hws.
  - exists ws. split; [reflexivity | exact Hws].
  - inversion Hwords as [|? ? [Hne Hplain] Hrest]; subst.
    cbn [fold_left]. unfold translate_word at 2.
    rewrite (dirname_plain_word w Hplain). cbn [String.eqb negb orb].
    destruct (String.eqb w ".") eqn:Hdot; [apply (IH Hrest ws Hws)|].
    destruct (String.eqb w "..") eqn:Hdd; [apply (IH Hrest ws Hws)|].
    cbn [orb].
    assert (Hacc : root ++ segments ws <> ""
                   /\ ends_with_slash (root ++ segments ws) = false).
    { destruct ws as [|x ws' _] using rev_ind.
      - cbn [segments]. rewrite append_nil_r. split; assumption.
      - rewrite segments_snoc.
        apply Forall_app in Hws as [_ Hx]. inversion Hx as [|? ? [Hx1 [Hx2 _]] _]; subst.
        split.
        + rewrite <- !append_assoc. apply append_not_empty. exact Hx1.
        + rewrite <- !append_assoc. apply no_slash_at_end; assumption. }
    destruct Hacc as [Hacc1 Hacc2].
    rewrite (os_path_join_plain _ w Hacc1 Hacc2 Hplain).
    rewrite append_assoc, <- segments_snoc.
    apply (IH Hrest).
    apply Forall_app. split; [exact Hws|].
    constructor; [|constructor].
    apply String.eqb_neq in Hdot, Hdd.
    repeat split; assumption.
Qed.

(** Whatever the request path, [translate_path] answers with the static
    root followed by plain names. *)
Lemma translate_path_in_root E p :
  in_root (directory E) (translate_path E p).
Proof.
  unfold translate_path.
  set (trailing := ends_with_slash (Py.rstrip (Py.split1_head "#" (Py.split1_head "?" p)))).
  set (q := normpath (unquote (Py.split1_head "#" (Py.split1_head "?" p)))).
  set (words := filter (fun w => negb (String.eqb w "")) (Py.split "/" q)).
  assert (Hwords : Forall (fun w => w <> "" /\ Py.contains "/" w = false) words).
  { apply Forall_forall. intros w Hin.
    apply filter_In in Hin as [Hin Hne].
    split.
    - apply negb_true_iff, String.eqb_neq in Hne. exact Hne.
    - pose proof (split_pieces_without_sep "/" q) as Hall.
      rewrite Forall_forall in Hall. apply Hall. exact Hin. }
  destruct (directory_shape E) as [Hne Hend].
  destruct (translate_words_shape (directory E) words Hne Hend Hwords [] (Forall_nil _))
    as (ws & Heq & Hws).
  cbn [segments] in Heq. rewrite append_nil_r in Heq. rewrite Heq.
  destruct trailing.
  - exists ws, "/". rewrite append_assoc. repeat split; [exact Hws | right; reflexivity].
  - exists ws, "". rewrite append_nil_r. repeat split; [exact Hws | left; reflexivity].
Qed.

(** An index page next to a path in the root is in the root. *)
Lemma in_root_index_page E p name :
  simple_name name ->
  in_root (directory E) p -> in_root (directory E) (os_path_join p name).
Proof.
  intros Hname (ws & tail & Hp & Hws & Htail).
  destruct Hname as (Hn1 & Hn2 & Hn3 & Hn4).
  exists (ws ++ [name])%list, "". rewrite append_nil_r, segments_snoc.
  split; [|split; [|left; reflexivity]].
  - unfold os_path_join. rewrite (startswith_slash_plain_word name Hn2).
    destruct Htail as [Ht|Ht]; subst tail p.
    + rewrite append_nil_r.
      assert (Hend : ends_with_slash (directory E ++ segments ws) = false).
      { destruct (directory_shape E) as [_ Hd].
        destruct ws as [|x ws' _] using rev_ind.
        - cbn [segments]. rewrite append_nil_r. exact Hd.
        - rewrite segments_snoc.
          apply Forall_app in Hws as [_ Hx].
          inversion Hx as [|? ? [Hx1 [Hx2 _]] _]; subst.
          rewrite <- !append_assoc. apply no_slash_at_end; assumption. }
      rewrite Hend.
      destruct (String.eqb (directory E ++ segments ws) "") eqn:Heq.
      * apply String.eqb_eq in Heq. destruct (directory_shape E) as [Hd _].
        exfalso. apply (append_not_empty (directory E) (segments ws)) in Heq;
          [exact Heq|].
        intros Hs. rewrite Hs, append_nil_r in Heq. exact (Hd Heq).
      * cbn [orb]. rewrite !append_assoc. reflexivity.
    + rewrite <- append_assoc. rewrite slash_at_end, orb_true_r.
      rewrite !append_assoc. reflexivity.
  - apply Forall_app. split; [exact Hws|].
    constructor; [|constructor]. repeat split; assumption.
Qed.

Lemma strip_prefix_append root x : strip_prefix root (root ++ x) = Some x.
Proof.
  induction root as [|a root IH]; cbn [append strip_prefix].
  - destruct x; reflexivity.
  - rewrite Ascii.eqb_refl. exact IH.
Qed.

Lemma segments_then_tail_shape ws tail :
  tail = "" \/ tail = "/" ->
  segments ws ++ tail = "" \/ exists r, segments ws ++ tail = String "/" r.
Proof.
  intros [Ht|Ht]; subst tail; destruct ws as [|w ws]; cbn [segments append].
  - left. reflexivity.
  - right. eexists. reflexivity.
  - right. eexists. reflexivity.
  - right. eexists. reflexivity.
Qed.

(** Split at the slashes, a relative path of plain names gives back these
    names, and empty pieces. *)
Lemma split_segments ws tail :
  Forall simple_name ws -> tail = "" \/ tail = "/" ->
  forall c, In c (Py.split "/" (segments ws ++ tail)) -> c = "" \/ In c ws.
Proof.
  intros Hws Htail. induction ws as [|w ws IH]; intros c Hin.
  - cbn [segments append] in Hin. left.
    destruct Htail; subst tail; cbn in Hin; intuition.
  - inversion Hws as [|? ? (Hw1 & Hw2 & _) Hrest]; subst.
    cbn [segments append] in Hin.
    change (Py.split "/" (String "/" ((w ++ segments ws) ++ tail)))
      with ("" :: Py.split "/" ((w ++ segments ws) ++ tail)) in Hin.
    destruct Hin as [Hc|Hin]; [left; symmetry; exact Hc|].
    rewrite append_assoc in Hin.
    destruct (segments_then_tail_shape ws tail Htail) as [Hnil|[r Hr]].
    + rewrite Hnil, append_nil_r, (split_plain_word w Hw2) in Hin.
      destruct Hin as [Hc|[]]. right. left. exact Hc.
    + rewrite Hr, (split_word_then_slash w r Hw2) in Hin.
      destruct Hin as [Hc|Hin]; [right; left; exact Hc|].
      assert (Hin' : In c (Py.split "/" (segments ws ++ tail))).
      { rewrite Hr. right. exact Hin. }
      destruct (IH Hrest c Hin') as [Hc|Hc]; [left; exact Hc | right; right; exact Hc].
Qed.

(** A path of the shape [in_root] passes the test [inside]. *)
Lemma in_root_inside root p : in_root root p -> inside root p = true.
Proof.
  intros (ws & tail & Hp & Hws & Htail). subst p.
  unfold inside. rewrite strip_prefix_append.
  destruct (segments_then_tail_shape ws tail Htail) as [Hnil|[r Hr]].
  - rewrite Hnil. reflexivity.
  - pose proof (split_segments ws tail Hws Htail) as Hsplit.
    rewrite Hr in Hsplit |- *. rewrite Ascii.eqb_refl. cbn [andb].
    apply forallb_forall. intros c Hin.
    apply negb_true_iff, String.eqb_neq.
    destruct (Hsplit c Hin) as [Hc|Hc]; [subst c; discriminate|].
    rewrite Forall_forall in Hws. destruct (Hws c Hc) as (_ & _ & _ & Hdd).
    exact Hdd.
Qed.

(** *** Effects that a computation may add *)

Section Preserves.

Variable P : Effect -> Prop.

Lemma preserves_ret {A} (a : A) : preserves P (ret a).
Proof. intros s H. exact H. Qed.

Lemma preserves_raise {A} (e : Exn) : preserves P (raise (A := A) e).
Proof. intros s H. exact H. Qed.

Lemma preserves_bind {A B} (m : M A) (k : A -> M B) :
  preserves P m -> (forall a, preserves P (k a)) -> preserves P (bind m k).
Proof.
  intros Hm Hk s H. unfold bind.
  specialize (Hm s H). destruct (m s) as [[a|e] s']; cbn [snd] in *.
  - apply Hk. exact Hm.
  - exact Hm.
Qed.

Lemma preserves_perform e : P e -> preserves P (perform e).
Proof.
  intros He s H. cbn. apply Forall_app. split; [exact H|].
  constructor; [exact He | constructor].
Qed.

Lemma preserves_buffer w : preserves P (buffer w).
Proof. intros s H. exact H. Qed.

Lemma preserves_wfile_write b : preserves P (wfile_write b).
Proof. intros s H. exact H. Qed.

Lemma preserves_flush_headers : preserves P flush_headers.
Proof. intros s H. exact H. Qed.

Lemma preserves_send_header k v : preserves P (send_header k v).
Proof. apply preserves_buffer. Qed.

Lemma preserves_end_headers : preserves P end_headers.
Proof.
  apply preserves_bind; [apply preserves_buffer|].
  intros _. apply preserves_flush_headers.
Qed.

Lemma preserves_send_response E c message :
  preserves P (send_response E c message).
Proof.
  unfold send_response, send_response_only.
  repeat (apply preserves_bind; [|intros _]);
    first [apply preserves_buffer | apply preserves_send_header].
Qed.

Lemma preserves_send_error E req c message :
  preserves P (send_error E req c message).
Proof.
  unfold send_error.
  destruct (responses E c) as [[short long]|];
    (apply preserves_bind; [apply preserves_send_response | intros _];
     apply preserves_bind; [apply preserves_send_header | intros _];
     match goal with |- preserves _ (if ?b then _ else _) => destruct b end;
     [|apply preserves_end_headers];
     apply preserves_bind; [apply preserves_send_header | intros _];
     apply preserves_bind; [apply preserves_send_header | intros _];
     apply preserves_bind; [apply preserves_end_headers | intros _];
     match goal with |- preserves _ (if ?b then _ else _) => destruct b end;
     [apply preserves_wfile_write | apply preserves_ret]).
Qed.

End Preserves.

Section StaticEffects.

Variable E : Env.
Variable req : Request.

Lemma preserves_send_file_head p :
  inside (directory E) p = true -> preserves (stays_inside (directory E)) (send_file_head E req p).
Proof.
  intros Hp. unfold send_file_head.
  destruct (ends_with_slash p).
  - apply preserves_bind; [apply preserves_send_error | intros _; apply preserves_ret].
  - apply preserves_bind; [apply preserves_perform; exact Hp | intros _].
    destruct (has_nul p); [apply preserves_raise|].
    destruct (fs E p) as [|content|error|listing];
      try (apply preserves_bind;
           [apply preserves_send_error | intros _; apply preserves_ret]).
    match goal with |- preserves _ (if ?b then _ else _) => destruct b end;
      repeat (apply preserves_bind; [|intros _]);
      first [apply preserves_send_response | apply preserves_send_header
            | apply preserves_end_headers | apply preserves_ret].
Qed.

Lemma preserves_list_directory p :
  inside (directory E) p = true -> preserves (stays_inside (directory E)) (list_directory E req p).
Proof.
  intros Hp. unfold list_directory.
  apply preserves_bind; [apply preserves_perform; exact Hp | intros _].
  destruct (fs E p) as [|content|error|[names|]];
    try (apply preserves_bind;
         [apply preserves_send_error | intros _; apply preserves_ret]).
  repeat (apply preserves_bind; [|intros _]);
    first [apply preserves_send_response | apply preserves_send_header
          | apply preserves_end_headers | apply preserves_ret].
Qed.

Lemma preserves_send_head : preserves (stays_inside (directory E)) (send_head E req).
Proof.
  unfold send_head.
  pose proof (translate_path_in_root E (path req)) as Hroot.
  set (p := translate_path E (path req)) in *.
  pose proof (in_root_inside _ _ Hroot) as Hp.
  assert (Hhtml : inside (directory E) (os_path_join p "index.html") = true).
  { apply in_root_inside, in_root_index_page; [|exact Hroot].
    repeat split; discriminate || reflexivity. }
  assert (Hhtm : inside (directory E) (os_path_join p "index.htm") = true).
  { apply in_root_inside, in_root_index_page; [|exact Hroot].
    repeat split; discriminate || reflexivity. }
  apply preserves_bind; [apply preserves_perform; exact Hp | intros _].
  destruct (fs E p) as [|content|error|listing];
    try (apply preserves_send_file_head; exact Hp).
  destruct (negb (ends_with_slash (urlsplit_path (path req)))).
  - repeat (apply preserves_bind; [|intros _]);
      first [apply preserves_send_response | apply preserves_send_header
            | apply preserves_end_headers | apply preserves_ret].
  - apply preserves_bind; [apply preserves_perform; exact Hhtml | intros _].
    destruct (isfile E (os_path_join p "index.html"));
      [apply preserves_send_file_head; exact Hhtml|].
    apply preserves_bind; [apply preserves_perform; exact Hhtm | intros _].
    destruct (isfile E (os_path_join p "index.htm"));
      [apply preserves_send_file_head; exact Hhtm|].
    apply preserves_list_directory. exact Hp.
Qed.

Lemma preserves_simple_do_GET : preserves (stays_inside (directory E)) (simple_do_GET E req).
Proof.
  unfold simple_do_GET.
  apply preserves_bind; [apply preserves_send_head|].
  intros [content|]; [apply preserves_wfile_write | apply preserves_ret].
Qed.

(** Nothing at the translated path, a path [open] accepts: the answer is
    404. *)
Lemma simple_do_GET_absent :
  has_nul (translate_path E (path req)) = false ->
  fs E (translate_path E (path req)) = Absent ->
  status_of (sent (simple_do_GET E req)) = Some 404%Z.
Proof.
  intros Hnul Habs.
  assert (Hsent : sent (simple_do_GET E req)
                  = sent (send_error E req 404 (Some "File not found"))).
  { unfold simple_do_GET, send_head, send_file_head, sent at 1, run.
    unfold bind at 1. unfold bind at 1. unfold perform at 1.
    rewrite Habs, Hnul.
    destruct (ends_with_slash (translate_path E (path req))).
    - unfold bind, ret, fresh.
      cbn [effects headers_buffer wfile app].
      rewrite send_error_run. reflexivity.
    - unfold bind, perform, ret, fresh.
      cbn [effects headers_buffer wfile app].
      rewrite send_error_run. reflexivity. }
  rewrite Hsent. apply sent_send_error_status.
Qed.

End StaticEffects.

Lemma fs_paths_inside root effs :
  Forall (stays_inside root) effs ->
  forallb (inside root) (fs_paths effs) = true.
Proof.
  induction 1 as [|e effs He _ IH]; [reflexivity|].
  unfold stays_inside in He.
  destruct e; cbn [fs_paths forallb fs_effect_inside] in *;
    try exact IH; rewrite He, IH; reflexivity.
Qed.

(** What the inherited handler does guarantee: whatever the request path,
    [..] segments included, the path it resolves is the served directory
    [frontend/] followed by plain names, and so is every path it looks at
    or opens.  This bounds the text of the paths, not where a symbolic
    link among them leads.  When nothing exists at a resolved path that
    [open] accepts, the answer is 404. *)
Lemma static_handler_stays_inside_directory :
  forall (E : Env) (req : Request),
    inside (directory E) (translate_path E (path req)) = true
    /\ forallb (inside (directory E))
         (fs_paths (performed (simple_do_GET E req))) = true
    /\ (has_nul (translate_path E (path req)) = false ->
        fs E (translate_path E (path req)) = Absent ->
        status_of (sent (simple_do_GET E req)) = Some 404%Z).
Proof.
  intros E req. split; [|split].
  - apply in_root_inside, translate_path_in_root.
  - apply fs_paths_inside.
    apply (preserves_simple_do_GET E req fresh). constructor.
  - apply simple_do_GET_absent.
Qed.

(** A static path that climbs above [/] is not refused either: its [..]
    segments are dropped and what is left is looked up in the served
    directory, so the answer is 200 when a file of that name is there. *)
Lemma climbing_static_path_is_not_refused :
  ~ (forall (E : Env) (req : Request),
        command req = "GET" ->
        Py.startswith (path req) "/static/" = true ->
        escapes_static_root (path req) = true ->
        status_of (sent (handle_one_request E req)) = Some 404%Z).
Proof.
  intros H.
  specialize (H (Sample.env Sample.files Sample.down)
                (Sample.get "/static/../../etc/passwd")
                eq_refl eq_refl eq_refl).
  vm_compute in H. discriminate H.
Qed.

(** C7, at a failing input: GET /static/../templates/index.html is a
    static-path request whose resolved file path,
    [frontend/templates/index.html], lies outside the static root
    [frontend/static].  The handler does not respond NotFound: it opens
    that file and answers 200 with its contents. *)
Theorem static_request_reads_file_outside_static_root :
  let E := Sample.env Sample.files Sample.down in
  let req := Sample.get "/static/../templates/index.html" in
  Py.startswith (path req) "/static/" = true
  /\ static_root E = "/srv/fableflow/frontend/static"
  /\ translate_path E (path req) = "/srv/fableflow/frontend/templates/index.html"
  /\ inside (static_root E) (translate_path E (path req)) = false
  /\ In (FsOpen (translate_path E (path req)))
        (performed (handle_one_request E req))
  /\ status_of (sent (handle_one_request E req)) = Some 200%Z
  /\ body_of (sent (handle_one_request E req)) = Sample.index_html
  /\ fs E (translate_path E (path req)) = File Sample.index_html.
Proof.
  vm_compute. repeat split; try reflexivity.
  right. left. reflexivity.
Qed.

(** ** Worked examples *)

Example int_plain : Py.int "42" = inr 42%Z.
Proof. reflexivity. Qed.

Example int_blanks_sign_underscore : Py.int "  +1_0 " = inr 10%Z.
Proof. reflexivity. Qed.

Example int_negative : Py.int "-7" = inr (-7)%Z.
Proof. reflexivity. Qed.

Example int_rejects_text :
  Py.int "12abc" = inl "invalid literal for int() with base 10: '12abc'".
Proof. reflexivity. Qed.

Example int_rejects_double_underscore :
  Py.int "1__0" = inl "invalid literal for int() with base 10: '1__0'".
Proof. reflexivity. Qed.

Example split_keeps_empty_pieces :
  Py.split "/" "/a//b" = [""; "a"; ""; "b"].
Proof. reflexivity. Qed.

Example lower_header_name : Py.lower "Content-Length" = "content-length".
Proof. reflexivity. Qed.

Example unquote_dots : unquote "/static/%2e%2e/%2E%2e/x%zz" = "/static/../../x%zz".
Proof. reflexivity. Qed.

Example normpath_climbs_to_root : normpath "/static/../../etc/passwd" = "/etc/passwd".
Proof. reflexivity. Qed.

Example normpath_two_slashes : normpath "//static/./a//b/" = "//static/a/b".
Proof. reflexivity. Qed.

Example translate_path_drops_dots :
  translate_path (Sample.env Sample.files Sample.down)
    "/static/%2e%2e/%2e%2e/etc/passwd?x=1#top"
  = "/srv/fableflow/frontend/etc/passwd".
Proof. reflexivity. Qed.

Example dict_keeps_first_value :
  dict_of_headers [("X-A", "1"); ("x-a", "2"); ("Accept", "t"); ("Accept", "j")]
  = [("X-A", "1"); ("x-a", "1"); ("Accept", "t")].
Proof. reflexivity. Qed.

(** A Content-Length of 0 forwards no body although bytes are waiting. *)
Example zero_content_length_forwards_nothing :
  map data
    (urlopen_calls
       (performed
          (proxy_to_backend (Sample.env Sample.files Sample.down)
             (mkRequest "POST" "/api/books" [("Content-Length", "0")]
                (Sample.b "ignored")))))
  = [None].
Proof. reflexivity. Qed.

(** A Content-Length of 3 forwards the first three bytes. *)
Example content_length_cuts_the_stream :
  map data
    (urlopen_calls
       (performed
          (proxy_to_backend (Sample.env Sample.files Sample.down)
             (mkRequest "PUT" "/api/books/1" [("content-length", "3")]
                (Sample.b "abcdef")))))
  = [Some (Sample.b "abc")].
Proof. reflexivity. Qed.

(** A Content-Length that is no integer: 502, and the backend is not
    called. *)
Example bad_content_length_stops_the_relay :
  let run_ := run (proxy_to_backend (Sample.env Sample.files Sample.down)
                     (mkRequest "POST" "/api/books" [("Content-Length", "two")]
                        (Sample.b "{}"))) in
  status_of (fst run_) = Some 502%Z /\ urlopen_calls (snd run_) = [].
Proof. vm_compute. split; reflexivity. Qed.

(** A Content-Length no read can serve: 502 with the text of the
    [OverflowError], and the backend is not called. *)
Example huge_content_length_stops_the_relay :
  let run_ := run (proxy_to_backend (Sample.env Sample.files Sample.down)
                     (mkRequest "POST" "/api/books"
                        [("Content-Length", "99999999999999999999")]
                        (Sample.b "{}"))) in
  status_of (fst run_) = Some 502%Z
  /\ reason_of (fst run_)
     = Some "Backend connection failed: cannot fit 'int' into an index-sized integer"
  /\ urlopen_calls (snd run_) = [].
Proof. vm_compute. repeat split; reflexivity. Qed.

(** An answer of the backend with status 201 goes through, and its
    Content-Length header is left out. *)
Example created_is_relayed :
  let w := sent (handle_one_request
                   (Sample.env Sample.files
                      (Sample.answer 201 "Created"
                         [("Content-Type", "application/json");
                          ("Content-Length", "2")] "{}"))
                   (Sample.post "/api/books" "{}")) in
  status_of w = Some 201%Z
  /\ headers_get (headers_of w) "Content-Length" = None
  /\ has_cors_headers (headers_of w) = true
  /\ body_of w = Sample.b "{}".
Proof. vm_compute. repeat split; reflexivity. Qed.

(** PUT has no [do_PUT]: 501, also under [/api/]. *)
Example put_is_not_implemented :
  status_of (sent (handle_one_request (Sample.env Sample.files Sample.down)
                     (mkRequest "PUT" "/api/books/1" [] [])))
  = Some 501%Z.
Proof. reflexivity. Qed.

(** * Further properties *)

(** ** What the relay does with the backend's answer *)

Lemma headers_of_header_lines (h : Headers) (rest : list Wire) :
  headers_of (header_lines h ++ rest) = (h ++ headers_of rest)%list.
Proof.
  induction h as [|[k v] h IH]; [reflexivity|].
  cbn [header_lines map app headers_of fst snd]. fold (header_lines h).
  rewrite IH. reflexivity.
Qed.

Lemma headers_of_relayed E resp :
  headers_of (relayed E resp)
  = ([ ("Server", version_string E); ("Date", date_time_string E) ]
     ++ cors_headers ++ relayed_headers (hdrs resp))%list.
Proof.
  unfold relayed. cbn [app headers_of].
  rewrite headers_of_header_lines. cbn [headers_of].
  rewrite app_nil_r. reflexivity.
Qed.

Lemma body_of_header_lines (h : Headers) (rest : list Wire) :
  body_of (header_lines h ++ rest) = body_of rest.
Proof.
  induction h as [|[k v] h IH]; [reflexivity|].
  cbn [header_lines map app body_of]. fold (header_lines h). exact IH.
Qed.

Lemma excluded_names name :
  excluded name = true ->
  Py.lower name = "content-encoding" \/ Py.lower name = "content-length"
  \/ Py.lower name = "transfer-encoding".
Proof.
  unfold excluded. cbn [existsb]. rewrite orb_false_r.
  intros H. apply orb_prop in H as [H|H]; [|apply orb_prop in H as [H|H]];
    apply String.eqb_eq in H; auto.
Qed.

Lemma headers_get_relayed_headers h name :
  excluded name = true -> headers_get (relayed_headers h) name = None.
Proof.
  intros Hex. induction h as [|[k v] h IH]; [reflexivity|].
  cbn [relayed_headers filter fst]. fold (relayed_headers h).
  destruct (excluded k) eqn:Hk; cbn [negb]; [exact IH|].
  cbn [headers_get].
  destruct (String.eqb (Py.lower k) (Py.lower name)) eqn:Heq; [|exact IH].
  apply String.eqb_eq in Heq. unfold excluded in Hk, Hex.
  rewrite Heq in Hk. congruence.
Qed.

(** An answer of the backend that could be read to its end goes out
    without its Content-Encoding, Content-Length and Transfer-Encoding
    headers, however their names are written: a lookup of such a name in
    the response finds nothing.  (The request is one whose body, if any,
    could be read.) *)
Theorem relay_drops_framing_headers :
  forall (E : Env) (req : Request) (n : Z) (resp : BackendResponse) (name : string),
    content_length_value req = inr n ->
    read_failure E n = None ->
    urlopen_result E (outbound_request req n) = inr resp ->
    read_error resp = None ->
    excluded name = true ->
    headers_get (headers_of (sent (proxy_to_backend E req))) name = None.
Proof.
  intros E req n resp name Hn Hread Hres Hbody Hex.
  rewrite sent_proxy_to_backend. unfold proxy_outcome.
  rewrite Hn, Hread, Hres, Hbody. cbn [wfile]. rewrite headers_of_relayed.
  pose proof (headers_get_relayed_headers (hdrs resp) name Hex) as Hrest.
  destruct (excluded_names name Hex) as [Hl|[Hl|Hl]];
    cbn [app cors_headers headers_get]; rewrite Hl;
    cbn [Py.lower Py.lower_char String.eqb Ascii.eqb Bool.eqb nat_of_ascii
         Nat.leb Nat.eqb andb orb negb];
    exact Hrest.
Qed.

Lemma relay_drops_framing_headers_witness :
  let E := Sample.env Sample.files
             (Sample.answer 200 "OK"
                [("Content-Type", "application/json");
                 ("CONTENT-LENGTH", "2"); ("Transfer-Encoding", "chunked")] "{}") in
  let w := sent (proxy_to_backend E (Sample.get "/api/books")) in
  headers_get (headers_of w) "Content-Length" = None
  /\ headers_get (headers_of w) "transfer-encoding" = None.
Proof.
  intros E w. split.
  - exact (relay_drops_framing_headers E (Sample.get "/api/books") 0%Z _
             "Content-Length" eq_refl eq_refl eq_refl eq_refl eq_refl).
  - exact (relay_drops_framing_headers E (Sample.get "/api/books") 0%Z _
             "transfer-encoding" eq_refl eq_refl eq_refl eq_refl eq_refl).
Defined.

(** Whenever [urlopen] returns an answer that can be read to its end, the
    relay sends its status and its body as they are, the three CORS
    headers, and every header of the answer that is not one of the three
    excluded ones, in the order of the answer.  (The request is one whose
    body, if any, could be read.) *)
Theorem relay_passes_answer_through :
  forall (E : Env) (req : Request) (n : Z) (resp : BackendResponse),
    content_length_value req = inr n ->
    read_failure E n = None ->
    urlopen_result E (outbound_request req n) = inr resp ->
    read_error resp = None ->
    status_of (sent (proxy_to_backend E req)) = Some (code resp)
    /\ body_of (sent (proxy_to_backend E req)) = payload resp
    /\ has_cors_headers (headers_of (sent (proxy_to_backend E req))) = true
    /\ headers_of (sent (proxy_to_backend E req))
       = ([ ("Server", version_string E); ("Date", date_time_string E) ]
          ++ cors_headers
          ++ filter (fun kv => negb (excluded (fst kv))) (hdrs resp))%list
    /\ (forall k v, In (k, v) (hdrs resp) -> excluded k = false ->
                    In (k, v) (headers_of (sent (proxy_to_backend E req)))).
Proof.
  intros E req n resp Hn Hread Hres Hbody.
  rewrite sent_proxy_to_backend. unfold proxy_outcome.
  rewrite Hn, Hread, Hres, Hbody. cbn [wfile]. rewrite headers_of_relayed.
  split; [reflexivity|]. split.
  { unfold relayed. cbn [app body_of]. rewrite body_of_header_lines.
    cbn [body_of]. apply app_nil_r. }
  split; [reflexivity|]. split; [reflexivity|].
  intros k v Hin Hk. right. right. cbn [cors_headers app]. right. right. right.
  apply filter_In. split; [exact Hin|]. cbn [fst]. rewrite Hk. reflexivity.
Qed.

Lemma relay_passes_answer_through_witness :
  let E := Sample.env Sample.files
             (Sample.answer 201 "Created"
                [("Content-Type", "application/json"); ("Content-Length", "2");
                 ("Location", "/api/books/7")] "{}") in
  let w := sent (proxy_to_backend E (Sample.post "/api/books" "{}")) in
  status_of w = Some 201%Z
  /\ body_of w = Sample.b "{}"
  /\ In ("Location", "/api/books/7") (headers_of w).
Proof.
  intros E w.
  destruct (relay_passes_answer_through E (Sample.post "/api/books" "{}") 2%Z _
              eq_refl eq_refl eq_refl eq_refl) as (Hs & Hb & _ & _ & Hkeep).
  split; [exact Hs|]. split; [exact Hb|].
  apply Hkeep; [right; right; left; reflexivity | reflexivity].
Defined.

(** A Content-Length header that [int] does not accept ends the request
    before the backend is called: the client is sent 502 with the text of
    the [ValueError], and the same text is printed. *)
Theorem bad_content_length_is_502_without_call :
  forall (E : Env) (req : Request) (text : string),
    content_length_value req = inl text ->
    status_of (sent (proxy_to_backend E req)) = Some 502%Z
    /\ reason_of (sent (proxy_to_backend E req))
       = Some ("Backend connection failed: " ++ text)
    /\ performed (proxy_to_backend E req)
       = [Print ("Error proxying to backend: " ++ text)].
Proof.
  intros E req text Hn.
  rewrite sent_proxy_to_backend, performed_proxy_to_backend.
  unfold proxy_outcome, failed_relay. rewrite Hn. cbn [wfile effects app str].
  rewrite sent_send_error_status, sent_send_error_reason.
  repeat split; reflexivity.
Qed.

Lemma bad_content_length_is_502_without_call_witness :
  let E := Sample.env Sample.files (Sample.answer 200 "OK" [] "{}") in
  let req := mkRequest "POST" "/api/books" [("Content-Length", "2 bytes")]
               (Sample.b "{}") in
  status_of (sent (proxy_to_backend E req)) = Some 502%Z
  /\ urlopen_calls (performed (proxy_to_backend E req)) = [].
Proof.
  intros E req.
  destruct (bad_content_length_is_502_without_call E req
              "invalid literal for int() with base 10: '2 bytes'" eq_refl)
    as (Hs & _ & Hp).
  split; [exact Hs | rewrite Hp; reflexivity].
Defined.

Lemma proxy_turns_error_status_into_502_witness :
  let E := Sample.env Sample.files
             (Sample.answer 500 "Internal Server Error" [] "oops") in
  let req := Sample.get "/read/story/3" in
  status_of (sent (proxy_to_backend E req)) = Some 502%Z
  /\ reason_of (sent (proxy_to_backend E req))
     = Some "Backend connection failed: HTTP Error 500: Internal Server Error".
Proof.
  intros E req.
  apply (proxy_turns_error_status_into_502 E req 0%Z
           (mkBackendResponse 500 "Internal Server Error" [] (Sample.b "oops")
              None));
    [reflexivity | reflexivity | reflexivity | right; cbn; lia | reflexivity].
Defined.

(** ** Where the CORS headers are, and where they are not *)

Lemma send_error_has_no_cors_headers E req c message :
  has_cors_headers (headers_of (sent (send_error E req c message))) = false.
Proof.
  unfold send_error.
  destruct (responses E c) as [[short long]|];
    destruct message as [m|];
    destruct ((200 <=? c)%Z && negb ((c =? 204)%Z || (c =? 205)%Z || (c =? 304)%Z));
    try destruct (negb (String.eqb (command req) "HEAD") && negb (length _ =? 0));
    reflexivity.
Qed.

(** The relay puts the three CORS headers on the wire exactly when
    [urlopen] returned an answer: they go out with the head of that
    answer, before its body is read.  The call is made when the
    Content-Length is absent or an integer and the body, if any, could be
    read.  The index responder sends them exactly when the template could
    be read.  The error responses, which go through [send_error], have
    none. *)
Theorem cors_headers_mark_success :
  forall (E : Env) (req : Request),
    has_cors_headers (headers_of (sent (proxy_to_backend E req)))
    = match content_length_value req with
      | inl _ => false
      | inr n =>
          match read_failure E n with
          | Some _ => false
          | None =>
              match urlopen_result E (outbound_request req n) with
              | inr _ => true
              | inl _ => false
              end
          end
      end
    /\ has_cors_headers (headers_of (sent (serve_index E req)))
       = match fs E (index_path E) with
         | File _ => true
         | _ => false
         end.
Proof.
  intros E req. split.
  - rewrite sent_proxy_to_backend. unfold proxy_outcome, failed_relay.
    destruct (content_length_value req) as [text|n];
      [apply send_error_has_no_cors_headers|].
    destruct (read_failure E n) as [e|];
      [apply send_error_has_no_cors_headers|].
    destruct (urlopen_result E (outbound_request req n)) as [e|resp];
      [apply send_error_has_no_cors_headers|].
    destruct (read_error resp) as [e|]; [reflexivity|].
    apply relayed_answer_has_cors_headers.
  - rewrite sent_serve_index.
    destruct (fs E (index_path E)) as [|content|error|listing];
      try apply send_error_has_no_cors_headers. reflexivity.
Qed.

(** ** Methods the handler does not have *)

(** A request whose method is none of GET, POST, OPTIONS and HEAD, such as
    PUT or DELETE, is answered with 501 whatever its path: the backend is
    not called, the file system is not looked at, and the response has no
    CORS headers. *)
Theorem other_methods_are_not_implemented :
  forall (E : Env) (req : Request),
    command req <> "GET" -> command req <> "POST" ->
    command req <> "OPTIONS" -> command req <> "HEAD" ->
    status_of (sent (handle_one_request E req)) = Some 501%Z
    /\ reason_of (sent (handle_one_request E req))
       = Some ("Unsupported method (" ++ Py.repr (command req) ++ ")")
    /\ performed (handle_one_request E req) = []
    /\ has_cors_headers (headers_of (sent (handle_one_request E req))) = false.
Proof.
  intros E req Hget Hpost Hopt Hhead.
  apply String.eqb_neq in Hget, Hpost, Hopt, Hhead.
  unfold handle_one_request. rewrite Hget, Hpost, Hopt, Hhead.
  rewrite sent_send_error_status, sent_send_error_reason, performed_send_error,
    send_error_has_no_cors_headers.
  repeat split; reflexivity.
Qed.

Lemma other_methods_are_not_implemented_witness :
  let E := Sample.env Sample.files (Sample.answer 200 "OK" [] "{}") in
  let req := mkRequest "DELETE" "/api/books/1" [("Host", "localhost:3000")] [] in
  status_of (sent (handle_one_request E req)) = Some 501%Z
  /\ performed (handle_one_request E req) = [].
Proof.
  intros E req.
  destruct (other_methods_are_not_implemented E req) as (Hs & _ & Hp & _);
    try discriminate.
  split; [exact Hs | exact Hp].
Defined.

(** ** Each handler keeps to its own resource *)

Lemma performed_serve_index E req :
  performed (serve_index E req)
  = match fs E (index_path E) with
    | Absent => [FsExists (index_path E)]
    | _ => [FsExists (index_path E); FsOpen (index_path E)]
    end.
Proof.
  unfold serve_index, performed, run, try_except, path_exists, open_rb.
  destruct (fs E (index_path E)) as [|content|error|listing];
    unfold bind, perform, raise, ret, fresh;
    cbn [effects headers_buffer wfile app fst snd];
    rewrite ?send_error_run; reflexivity.
Qed.

Section StaticCalls.

Variable E : Env.
Variable req : Request.

Lemma calls_send_file_head p : preserves not_a_call (send_file_head E req p).
Proof.
  unfold send_file_head.
  destruct (ends_with_slash p).
  - apply preserves_bind; [apply preserves_send_error | intros _; apply preserves_ret].
  - apply preserves_bind; [apply preserves_perform; exact I | intros _].
    destruct (has_nul p); [apply preserves_raise|].
    destruct (fs E p) as [|content|error|listing];
      try (apply preserves_bind;
           [apply preserves_send_error | intros _; apply preserves_ret]).
    match goal with |- preserves _ (if ?b then _ else _) => destruct b end;
      repeat (apply preserves_bind; [|intros _]);
      first [apply preserves_send_response | apply preserves_send_header
            | apply preserves_end_headers | apply preserves_ret].
Qed.

Lemma calls_list_directory p : preserves not_a_call (list_directory E req p).
Proof.
  unfold list_directory.
  apply preserves_bind; [apply preserves_perform; exact I | intros _].
  destruct (fs E p) as [|content|error|[names|]];
    try (apply preserves_bind;
         [apply preserves_send_error | intros _; apply preserves_ret]).
  repeat (apply preserves_bind; [|intros _]);
    first [apply preserves_send_response | apply preserves_send_header
          | apply preserves_end_headers | apply preserves_ret].
Qed.

Lemma calls_send_head : preserves not_a_call (send_head E req).
Proof.
  unfold send_head.
  apply preserves_bind; [apply preserves_perform; exact I | intros _].
  destruct (fs E (translate_path E (path req))) as [|content|error|listing];
    try apply calls_send_file_head.
  destruct (negb (ends_with_slash (urlsplit_path (path req)))).
  - repeat (apply preserves_bind; [|intros _]);
      first [apply preserves_send_response | apply preserves_send_header
            | apply preserves_end_headers | apply preserves_ret].
  - apply preserves_bind; [apply preserves_perform; exact I | intros _].
    destruct (isfile E _); [apply calls_send_file_head|].
    apply preserves_bind; [apply preserves_perform; exact I | intros _].
    destruct (isfile E _); [apply calls_send_file_head|].
    apply calls_list_directory.
Qed.

End StaticCalls.

Lemma no_calls effs : Forall not_a_call effs -> urlopen_calls effs = [].
Proof.
  induction 1 as [|e effs He _ IH]; [reflexivity|].
  destruct e; cbn [urlopen_calls]; try exact IH. destruct He.
Qed.

(** The relay never looks at the file system; the index responder and
    the static handler never call the backend, and the index responder
    looks at no other path than that of the template, whatever the
    request. *)
Theorem handlers_keep_to_their_resource :
  forall (E : Env) (req : Request),
    fs_paths (performed (proxy_to_backend E req)) = []
    /\ urlopen_calls (performed (serve_index E req)) = []
    /\ Forall (eq (index_path E)) (fs_paths (performed (serve_index E req)))
    /\ urlopen_calls (performed (simple_do_GET E req)) = [].
Proof.
  intros E req. split; [|split; [|split]].
  - rewrite performed_proxy_to_backend. unfold proxy_outcome.
    destruct (content_length_value req) as [text|n]; [reflexivity|].
    destruct (read_failure E n); [reflexivity|].
    destruct (urlopen_result E (outbound_request req n)) as [e|resp];
      [reflexivity|].
    destruct (read_error resp); reflexivity.
  - rewrite performed_serve_index. destruct (fs E (index_path E)); reflexivity.
  - rewrite performed_serve_index.
    destruct (fs E (index_path E)); repeat constructor.
  - assert (Hp : preserves not_a_call (simple_do_GET E req)).
    { unfold simple_do_GET. apply preserves_bind; [apply calls_send_head|].
      intros [content|]; [apply preserves_wfile_write | apply preserves_ret]. }
    apply no_calls. apply (Hp fresh). constructor.
Qed.

(** ** Looking a header up after [dict(self.headers)] *)

Lemma headers_get_same_lower h k k' :
  Py.lower k = Py.lower k' -> headers_get h k = headers_get h k'.
Proof.
  intros Hl. induction h as [|[k1 v1] h IH]; [reflexivity|].
  cbn [headers_get]. rewrite Hl, IH. reflexivity.
Qed.

Lemma headers_get_found h k v :
  headers_get h k = Some v ->
  exists k', In (k', v) h /\ Py.lower k' = Py.lower k.
Proof.
  induction h as [|[k1 v1] h IH]; cbn [headers_get]; [discriminate|].
  destruct (String.eqb (Py.lower k1) (Py.lower k)) eqn:Heq.
  - intros H. inversion H. subst v1. apply String.eqb_eq in Heq.
    exists k1. split; [left; reflexivity | exact Heq].
  - intros H. destruct (IH H) as (k' & Hin & Hl).
    exists k'. split; [right; exact Hin | exact Hl].
Qed.

Lemma headers_get_missing h k :
  headers_get h k = None ->
  forall k' v, In (k', v) h -> Py.lower k' <> Py.lower k.
Proof.
  induction h as [|[k1 v1] h IH]; cbn [headers_get]; intros Hget k' v Hin.
  - destruct Hin.
  - destruct (String.eqb (Py.lower k1) (Py.lower k)) eqn:Heq; [discriminate|].
    destruct Hin as [Hin|Hin].
    + inversion Hin. subst k1 v1. apply String.eqb_neq. exact Heq.
    + exact (IH Hget k' v Hin).
Qed.

(** Whatever name the backend looks up in the forwarded headers, with
    whatever letter case, it finds what the same lookup finds in the
    inbound request: the first value under that name, or nothing. *)
Theorem forwarded_headers_answer_lookups_alike :
  forall (h : Headers) (name : string),
    headers_get (dict_of_headers h) name = headers_get h name.
Proof.
  intros h name.
  destruct (dict_of_headers_first_values h) as [_ Hdict].
  destruct (headers_get (dict_of_headers h) name) as [v|] eqn:Hd.
  - destruct (headers_get_found _ _ _ Hd) as (k' & Hin & Hl).
    apply Hdict in Hin as [_ Hget].
    rewrite <- Hget. apply headers_get_same_lower. exact Hl.
  - destruct (headers_get h name) as [v|] eqn:Hh; [|reflexivity].
    exfalso.
    destruct (headers_get_found _ _ _ Hh) as (k' & Hin & Hl).
    assert (Hk : In k' (headers_keys h)).
    { apply in_map_iff. exists (k', v). split; [reflexivity | exact Hin]. }
    destruct (headers_get h k') as [v'|] eqn:Hk'.
    + assert (Hin' : In (k', v') (dict_of_headers h)).
      { apply Hdict. split; [exact Hk | exact Hk']. }
      exact (headers_get_missing _ _ Hd k' v' Hin' Hl).
    + exact (headers_get_of_key h k' Hk Hk').
Qed.

(** ** What the relay prints and what it reports *)

(** The relay prints nothing when it passes an answer on, and exactly one
    line when it fails.  The wire then ends with the 502 response whose
    reason phrase carries the error text of the printed line.  Nothing
    precedes that response, unless the failure came while the body of the
    answer was read: then the head of the answer has gone out before it. *)
Theorem relay_prints_what_it_reports :
  forall (E : Env) (req : Request),
    match printed (performed (proxy_to_backend E req)) with
    | [] =>
        exists resp,
          read_error resp = None
          /\ sent (proxy_to_backend E req) = relayed E resp
    | [line] =>
        exists text before,
          line = "Error proxying to backend: " ++ text
          /\ sent (proxy_to_backend E req)
             = (before
                ++ sent (send_error E req 502
                           (Some ("Backend connection failed: " ++ text)%string)))%list
          /\ reason_of
               (sent (send_error E req 502
                        (Some ("Backend connection failed: " ++ text))))
             = Some ("Backend connection failed: " ++ text)
          /\ (before = []
              \/ exists resp e,
                   read_error resp = Some e /\ text = str e
                   /\ before = relayed_head E resp)
    | _ => False
    end.
Proof.
  intros E req.
  rewrite performed_proxy_to_backend, sent_proxy_to_backend.
  unfold proxy_outcome, failed_relay.
  destruct (content_length_value req) as [text|n].
  { cbn [printed effects wfile app str]. exists text, [].
    rewrite sent_send_error_reason. repeat split; try reflexivity.
    left. reflexivity. }
  destruct (read_failure E n) as [e|].
  { cbn [printed effects wfile app]. exists (str e), [].
    rewrite sent_send_error_reason. repeat split; try reflexivity.
    left. reflexivity. }
  destruct (urlopen_result E (outbound_request req n)) as [e|resp].
  { cbn [printed effects wfile app]. exists (str e), [].
    rewrite sent_send_error_reason. repeat split; try reflexivity.
    left. reflexivity. }
  destruct (read_error resp) as [e|] eqn:Hbody.
  - cbn [printed effects wfile app]. exists (str e), (relayed_head E resp).
    rewrite sent_send_error_reason. repeat split; try reflexivity.
    right. exists resp, e. split; [exact Hbody|]. split; reflexivity.
  - cbn [printed effects wfile]. exists resp. split; [exact Hbody|reflexivity].
Qed.

(** ** Query strings and fragments in static paths *)

Lemma split1_head_plain c p :
  Py.contains c p = false -> Py.split1_head c p = p.
Proof.
  induction p as [|a p IH]; cbn [Py.contains Py.split1_head]; [reflexivity|].
  intros H. apply orb_false_iff in H as [Ha Hp].
  rewrite Ha, (IH Hp). reflexivity.
Qed.

Lemma split1_head_append c p r :
  Py.contains c p = false ->
  Py.split1_head c (p ++ r) = p ++ Py.split1_head c r.
Proof.
  induction p as [|a p IH]; cbn [Py.contains Py.split1_head append]; [reflexivity|].
  intros H. apply orb_false_iff in H as [Ha Hp].
  rewrite Ha, (IH Hp). reflexivity.
Qed.

Lemma split1_head_at_separator c r : Py.split1_head c (String c r) = "".
Proof. cbn [Py.split1_head]. rewrite Ascii.eqb_refl. reflexivity. Qed.

(** A query string or a fragment behind a path does not change the file
    the static handler resolves. *)
Theorem translate_path_ignores_query_and_fragment :
  forall (E : Env) (p rest : string),
    Py.contains "?" p = false -> Py.contains "#" p = false ->
    translate_path E (p ++ String "?" rest) = translate_path E p
    /\ translate_path E (p ++ String "#" rest) = translate_path E p.
Proof.
  intros E p rest Hq Hf.
  assert (H1 : Py.split1_head "#" (Py.split1_head "?" (p ++ String "?" rest))
               = Py.split1_head "#" (Py.split1_head "?" p)).
  { rewrite (split1_head_append "?" p _ Hq), split1_head_at_separator,
      append_nil_r, (split1_head_plain "?" p Hq). reflexivity. }
  assert (H2 : Py.split1_head "#" (Py.split1_head "?" (p ++ String "#" rest))
               = Py.split1_head "#" (Py.split1_head "?" p)).
  { rewrite (split1_head_append "?" p _ Hq).
    change (Py.split1_head "?" (String "#" rest))
      with (String "#" (Py.split1_head "?" rest)).
    rewrite (split1_head_append "#" p _ Hf), split1_head_at_separator,
      append_nil_r, (split1_head_plain "?" p Hq), (split1_head_plain "#" p Hf).
    reflexivity. }
  unfold translate_path. rewrite H1, H2. split; reflexivity.
Qed.

Lemma translate_path_ignores_query_and_fragment_witness :
  let E := Sample.env Sample.files Sample.down in
  translate_path E "/static/app.js?v=3" = translate_path E "/static/app.js"
  /\ translate_path E "/static/app.js#top" = translate_path E "/static/app.js".
Proof.
  intros E.
  split.
  - exact (proj1 (translate_path_ignores_query_and_fragment E "/static/app.js" "v=3"
                    eq_refl eq_refl)).
  - exact (proj2 (translate_path_ignores_query_and_fragment E "/static/app.js" "top"
                    eq_refl eq_refl)).
Defined.

(** ** One response for every request *)







Section StaticResponse.

Variable E : Env.
Variable req : Request.









End StaticResponse.








(** Where the two conditions fail.  A static path with a NUL character:
    [open] raises [ValueError], which nothing catches, and no response is
    sent.  An answer whose body cannot be read after its head has gone
    out: the 502 follows that head on the wire. *)
Example nul_in_static_path_gets_no_response :
  handle_one_request (Sample.env Sample.files Sample.down)
    (Sample.get "/static/%00") fresh
  = (Raised (ValueError "embedded null byte"),
     mkSelf [] []
       [FsIsdir (String.append "/srv/fableflow/frontend/static/"
                   (String (ascii_of_nat 0) ""));
        FsOpen (String.append "/srv/fableflow/frontend/static/"
                  (String (ascii_of_nat 0) ""))]).
Proof. vm_compute. reflexivity. Qed.

Example unreadable_answer_gets_two_status_lines :
  let resp := mkBackendResponse 200 "OK" [("Content-Type", "text/plain")]
                (Sample.b "partial")
                (Some (HTTPException "IncompleteRead(7 bytes read, 3 more expected)")) in
  let E := Sample.env Sample.files (fun _ => Answered resp) in
  let w := sent (handle_one_request E (Sample.get "/api/books")) in
  one_response w = false
  /\ w = (relayed_head E resp
          ++ sent (send_error E (Sample.get "/api/books") 502
                     (Some "Backend connection failed: IncompleteRead(7 bytes read, 3 more expected)")))%list.
Proof. vm_compute. split; reflexivity. Qed.

(** ** HEAD requests *)



(** ** Static files *)

Lemma static_prefix_excludes_the_others p :
  Py.startswith p "/static/" = true ->
  Py.startswith p "/api/" = false /\ Py.startswith p "/read/" = false.
Proof.
  unfold Py.startswith.
  destruct p as [|a [|b p]]; cbn [String.prefix]; try discriminate.
  - destruct (ascii_dec "/" a); discriminate.
  - destruct (ascii_dec "/" a); [|discriminate].
    destruct (ascii_dec "s" b); [|discriminate]. subst b.
    intros _. split; reflexivity.
Qed.

(** A GET under [/static/] whose translated path is a regular file is
    answered with 200 and the bytes of that file as they are, with their
    number as Content-Length and the guessed type as Content-type, as long
    as the request has no If-Modified-Since header. *)
Theorem static_file_is_served_verbatim :
  forall (E : Env) (req : Request) (content : bytes),
    command req = "GET" ->
    Py.startswith (path req) "/static/" = true ->
    fs E (translate_path E (path req)) = File content ->
    ends_with_slash (translate_path E (path req)) = false ->
    headers_mem (headers req) "If-Modified-Since" = false ->
    status_of (sent (handle_one_request E req)) = Some 200%Z
    /\ body_of (sent (handle_one_request E req)) = content
    /\ headers_get (headers_of (sent (handle_one_request E req))) "Content-Length"
       = Some (Py.str_of_nat (length content))
    /\ headers_get (headers_of (sent (handle_one_request E req))) "Content-Type"
       = Some (guess_type E (translate_path E (path req))).
Proof.
  intros E req content Hget Hstatic Hfile Hslash Hims.
  destruct (static_prefix_excludes_the_others _ Hstatic) as [Hapi Hread].
  assert (Hnul : has_nul (translate_path E (path req)) = false).
  { destruct (has_nul (translate_path E (path req))) eqn:Hnul; [|reflexivity].
    rewrite (fs_refuses_nul E _ Hnul) in Hfile. discriminate Hfile. }
  assert (Hsent : sent (handle_one_request E req)
                  = [ StatusLine 200 (match responses E 200 with
                                      | Some (short, _) => short
                                      | None => ""
                                      end);
                      HeaderLine "Server" (version_string E);
                      HeaderLine "Date" (date_time_string E);
                      HeaderLine "Content-type"
                        (guess_type E (translate_path E (path req)));
                      HeaderLine "Content-Length" (Py.str_of_nat (length content));
                      HeaderLine "Last-Modified"
                        (last_modified E (translate_path E (path req)));
                      EndHeaders;
                      Body content ]).
  { unfold handle_one_request, do_GET. rewrite Hget, Hapi, Hread, Hstatic.
    cbn [String.eqb Ascii.eqb Bool.eqb].
    unfold simple_do_GET, send_head, send_file_head, sent, run.
    unfold bind at 1. unfold bind at 1. unfold perform at 1.
    rewrite Hfile, Hslash, Hims, Hnul. reflexivity. }
  rewrite Hsent. repeat split; try reflexivity.
  cbn. apply app_nil_r.
Qed.

Lemma static_file_is_served_verbatim_witness :
  let E := Sample.env Sample.files Sample.down in
  let req := Sample.get "/static/app.js?v=3" in
  status_of (sent (handle_one_request E req)) = Some 200%Z
  /\ body_of (sent (handle_one_request E req)) = Sample.b "console.log(1)".
Proof.
  intros E req.
  destruct (static_file_is_served_verbatim E req (Sample.b "console.log(1)")
              eq_refl eq_refl eq_refl eq_refl eq_refl) as (Hs & Hb & _).
  split; [exact Hs | exact Hb].
Defined.

(** ** Process start *)

Lemma errno_is_48 errno : errno_is errno 48 = true -> errno = Some 48%Z.
Proof.
  destruct errno as [m|]; cbn [errno_is]; [|discriminate].
  intros H. apply Z.eqb_eq in H. subst m. reflexivity.
Qed.

Lemma errno_is_not_48 errno : errno_is errno 48 = false -> errno <> Some 48%Z.
Proof. intros H Heq. subst errno. discriminate H. Qed.

(** [main] calls [sys.exit(1)] exactly when the first run of the server
    fails with errno 48 and the one retry fails too, with any [OSError];
    it has then started the server twice and printed the line that says
    so.  This is about the call of [sys.exit(1)] alone: an [OSError] with
    another errno leaves [main] uncaught, which ends the process with a
    status other than 0 by another road. *)
Theorem main_calls_sys_exit_1_after_failed_retry :
  forall (dir : string) (first second : ServeEnd),
    (snd (main dir first second) = SysExit 1
     <-> first = Fails (Some 48%Z) /\ exists errno, second = Fails errno)
    /\ (snd (main dir first second) = SysExit 1 ->
        serve_count (fst (main dir first second)) = 2
        /\ In (Say "❌ Still unable to bind to port 3000. Please check for other processes.")
              (fst (main dir first second))).
Proof.
  intros dir first second. unfold main.
  destruct first as [errno| |];
    [destruct (errno_is errno 48) eqn:H48;
     [apply errno_is_48 in H48; subst errno; destruct second
     |apply errno_is_not_48 in H48] | |];
    cbn [snd fst retry signal_handler];
    (split; [split|]; intros H);
    repeat match goal with
           | H : _ /\ _ |- _ => destruct H
           | H : exists _, _ |- _ => destruct H
           end;
    try discriminate; try congruence;
    try (split; [reflexivity | eexists; reflexivity]).
  split; [reflexivity|].
  apply in_or_app. right. cbn [app In]. do 5 right. left. reflexivity.
Qed.

Lemma main_calls_sys_exit_1_after_failed_retry_witness :
  snd (main "/srv/fableflow" (Fails (Some 48%Z)) (Fails (Some 98%Z))) = SysExit 1
  /\ serve_count (fst (main "/srv/fableflow" (Fails (Some 48%Z)) (Fails (Some 98%Z))))
     = 2.
Proof.
  destruct (main_calls_sys_exit_1_after_failed_retry
              "/srv/fableflow" (Fails (Some 48%Z)) (Fails (Some 98%Z)))
    as [[_ Hexit] Hthen].
  pose proof (Hexit (conj eq_refl (ex_intro _ (Some 98%Z) eq_refl))) as H.
  split; [exact H | exact (proj1 (Hthen H))].
Defined.

(** The port holder is killed and the server started a second time
    exactly when the first run failed with errno 48: then [os.system] is
    called once, with the [lsof | xargs kill -9] line for port 3000, and
    the server is started twice; in every other case nothing is killed and
    the server is started once. *)
Theorem main_kills_and_retries_only_on_errno_48 :
  forall (dir : string) (first second : ServeEnd),
    system_calls (fst (main dir first second))
    = (if address_in_use first
       then ["lsof -ti:3000 | xargs kill -9 2>/dev/null || true"]
       else [])
    /\ serve_count (fst (main dir first second))
       = (if address_in_use first then 2 else 1).
Proof.
  intros dir first second. unfold main, address_in_use.
  destruct first as [errno| |]; [|split; reflexivity | split; reflexivity].
  destruct (errno_is errno 48); [|split; reflexivity].
  destruct second; split; reflexivity.
Qed.

(** An [OSError] of the first run with any other errno, such as 98, the
    address-in-use number of Linux, leaves [main] as it came: after the
    banner, the two signal handlers and the one start of the server
    nothing else is done. *)
Theorem main_reraises_other_errors :
  forall (dir : string) (errno : option Z) (second : ServeEnd),
    errno <> Some 48%Z ->
    main dir (Fails errno) second
    = ((banner dir ++ [OnSignal "SIGINT"; OnSignal "SIGTERM"; Serve 3000 true])%list,
       RaisesOSError errno).
Proof.
  intros dir errno second Hne. unfold main.
  destruct (errno_is errno 48) eqn:H48; [|reflexivity].
  apply errno_is_48 in H48. contradiction.
Qed.

Lemma main_reraises_other_errors_witness :
  snd (main "/srv/fableflow" (Fails (Some 98%Z)) Stopped) = RaisesOSError (Some 98%Z)
  /\ system_calls (fst (main "/srv/fableflow" (Fails (Some 98%Z)) Stopped)) = [].
Proof.
  rewrite (main_reraises_other_errors "/srv/fableflow" (Some 98%Z) Stopped);
    [split; reflexivity | discriminate].
Defined.

(** ** The index responder and the request *)

Lemma sent_send_error_same_command E req1 req2 c message :
  command req1 = command req2 ->
  sent (send_error E req1 c message) = sent (send_error E req2 c message).
Proof. intros H. unfold send_error. rewrite H. reflexivity. Qed.

(** What the index responder sends and does depends on nothing in the
    request but its method: path, query string, headers and body play no
    part, also when the template is missing or unreadable. *)
Theorem index_response_ignores_request :
  forall (E : Env) (req1 req2 : Request),
    command req1 = command req2 ->
    run (serve_index E req1) = run (serve_index E req2).
Proof.
  intros E req1 req2 Hcmd.
  assert (Hs : sent (serve_index E req1) = sent (serve_index E req2)).
  { rewrite !sent_serve_index.
    destruct (fs E (index_path E)); try reflexivity;
      apply sent_send_error_same_command; exact Hcmd. }
  assert (Hp : performed (serve_index E req1) = performed (serve_index E req2)).
  { rewrite !performed_serve_index. reflexivity. }
  unfold sent, performed in Hs, Hp.
  destruct (run (serve_index E req1)), (run (serve_index E req2)).
  cbn [fst snd] in Hs, Hp. subst. reflexivity.
Qed.

Lemma index_response_ignores_request_witness :
  let E := Sample.env Sample.no_files Sample.down in
  run (serve_index E (Sample.get "/"))
  = run (serve_index E
           (mkRequest "GET" "/books/7?tab=notes" [("Accept", "text/html")]
              (Sample.b "x"))).
Proof.
  intros E. apply index_response_ignores_request. reflexivity.
Defined.
